(** * csvgraph: the field-scaling heuristic and the graph-data builder

    A shallow embedding of the three variants of the [App] component
    (the two components of [src/src/App.jsx] and the one of
    [src/unnamed/part_000]) together with the part of the ECMAScript
    runtime they call: IEEE-754 binary64 numbers (Rocq's primitive
    floats), the [ToNumber] coercion, [isNaN], [Math.max],
    [String.prototype.toLowerCase] / [includes] and the conversion of a
    number to a string used by template literals.

    React state is modelled as one record holding every [useState] cell;
    an event handler is a function from the state to the next state
    together with what it did to the outside world ([alert], an uncaught
    exception).  Strings are byte strings, so case mapping and white
    space are the ASCII ones; an object is the finite map of its own
    properties. *)

From Stdlib Require Import ZArith Floats String Ascii List Lia Bool DecimalString.
From stdpp Require Import gmap strings list.

Set Warnings "-inexact-float".

Local Open Scope Z_scope.

(** ** The ECMAScript runtime used by the component *)

Module JS.

(** *** Language values

    The values a parsed CSV cell can hold (PapaParse with
    [dynamicTyping: true] yields numbers, booleans, [null], strings and
    [Date] objects; a missing key reads as [undefined]).  A [Date] is
    represented by its time value, which is all that [ToNumber] sees. *)
Inductive value : Type :=
  | VUndefined
  | VNull
  | VBool (b : bool)
  | VNum (n : float)
  | VStr (s : string)
  | VDate (t : float).

(** *** Number::toString (radix 10) *)

Definition decimalDigits (n : Z) : string :=
  NilZero.string_of_uint (N.to_uint (Z.to_N n)).

Fixpoint zeros (n : nat) : string :=
  match n with
  | O => ""
  | S n' => String "0" (zeros n')
  end.

(** [cmpDecBin s t b g] compares [s * 10^t] with [b * 2^g] exactly. *)
Definition cmpDecBin (s t b g : Z) : comparison :=
  (s * 10 ^ Z.max t 0 * 2 ^ Z.max (- g) 0
     ?= b * 2 ^ Z.max g 0 * 10 ^ Z.max (- t) 0).

(** The [n] with [10^(n-1) <= b * 2^g < 10^n], searched for from an
    estimate taken from the binary logarithm. *)
Fixpoint magnitudeDown (fuel : nat) (n : Z) (b g : Z) : Z :=
  match fuel with
  | O => n
  | S fuel' =>
      match cmpDecBin 1 (n - 1) b g with
      | Gt => magnitudeDown fuel' (n - 1) b g
      | _ => n
      end
  end.

Fixpoint magnitudeUp (fuel : nat) (n : Z) (b g : Z) : Z :=
  match fuel with
  | O => n
  | S fuel' =>
      match cmpDecBin 1 n b g with
      | Gt => n
      | _ => magnitudeUp fuel' (n + 1) b g
      end
  end.

Definition magnitude10 (b g : Z) : Z :=
  let n0 := (Z.log2 b + g) * 30103 / 100000 in
  magnitudeUp 700 (magnitudeDown 700 n0 b g) b g.

(** The [k]-digit decimals next to the value [v * 2^g] that still round
    to it: [lo * 2^g] and [hi * 2^g] bound the rounding interval, which
    is closed when [incl] holds.  The result is the pair [(s, n)] of the
    ECMAScript algorithm, the decimal being [s * 10^(n - k)]. *)
Definition candidate (v g lo hi : Z) (incl : bool) (n k : Z) : option (Z * Z) :=
  let t := n - k in
  let s0 := (v * 2 ^ Z.max g 0 * 10 ^ Z.max (- t) 0)
              / (2 ^ Z.max (- g) 0 * 10 ^ Z.max t 0) in
  let inside s :=
    match cmpDecBin s t lo g, cmpDecBin s t hi g with
    | Gt, Lt => true
    | Eq, Lt | Gt, Eq => incl
    | _, _ => false
    end in
  let pick s := if s =? 10 ^ k then (10 ^ (k - 1), n + 1) else (s, n) in
  match inside s0, inside (s0 + 1) with
  | true, true =>
      match cmpDecBin (2 * s0 + 1) t (2 * v) g with
      | Gt => Some (pick s0)
      | Lt => Some (pick (s0 + 1))
      | Eq => Some (pick (if Z.even s0 then s0 else s0 + 1))
      end
  | true, false => Some (pick s0)
  | false, true => Some (pick (s0 + 1))
  | false, false => None
  end.

Fixpoint shortest (fuel : nat) (v g lo hi : Z) (incl : bool) (n k : Z)
  : Z * Z * Z :=
  match fuel with
  | O => (v, n, k)
  | S fuel' =>
      match candidate v g lo hi incl n k with
      | Some (s, n') => (s, n', k)
      | None => shortest fuel' v g lo hi incl n (k + 1)
      end
  end.

(** Steps 5 to 9 of Number::toString: placing the decimal point. *)
Definition formatDecimal (s n k : Z) : string :=
  let digits := decimalDigits s in
  if (k <=? n) && (n <=? 21) then
    digits +:+ zeros (Z.to_nat (n - k))
  else if (0 <? n) && (n <=? 21) then
    substring 0 (Z.to_nat n) digits +:+ "." +:+
    substring (Z.to_nat n) (Z.to_nat (k - n)) digits
  else if (-6 <? n) && (n <=? 0) then
    "0." +:+ zeros (Z.to_nat (- n)) +:+ digits
  else
    let e := n - 1 in
    let sign := if e <? 0 then "-" else "+" in
    if k =? 1 then
      digits +:+ "e" +:+ sign +:+ decimalDigits (Z.abs e)
    else
      substring 0 1 digits +:+ "." +:+ substring 1 (Z.to_nat (k - 1)) digits
        +:+ "e" +:+ sign +:+ decimalDigits (Z.abs e).

(** The shortest decimal that reads back as the positive double
    [m * 2^e].  In units of [2^(e-2)] the value is [4m], the next double
    up is [4m + 4] and the next one down is [4m - 4], or [4m - 2] just
    above a power of two. *)
Definition positiveToString (m : positive) (e : Z) : string :=
  let v := 4 * Z.pos m in
  let g := e - 2 in
  let lo := if (Z.pos m =? 2 ^ 52) && (-1074 <? e) then v - 1 else v - 2 in
  let hi := v + 2 in
  let n := magnitude10 v g in
  let '(s, n', k) := shortest 17 v g lo hi (Z.even (Z.pos m)) n 1 in
  formatDecimal s n' k.

Definition numberToString (x : float) : string :=
  match Prim2SF x with
  | S754_nan => "NaN"
  | S754_zero _ => "0"
  | S754_infinity false => "Infinity"
  | S754_infinity true => "-Infinity"
  | S754_finite false m e => positiveToString m e
  | S754_finite true m e => "-" +:+ positiveToString m e
  end.

(** *** StringToNumber

    The StringNumericLiteral grammar: optional white space around an
    optional literal, which is a signed decimal (with [Infinity]) or an
    unsigned binary, octal or hexadecimal integer.  The empty literal is
    [+0], anything outside the grammar is [NaN]. *)

Definition isStrWhiteSpace (c : ascii) : bool :=
  let n := nat_of_ascii c in
  ((9 <=? n) && (n <=? 13))%nat || (n =? 32)%nat.

Fixpoint trimStart (s : string) : string :=
  match s with
  | String c s' => if isStrWhiteSpace c then trimStart s' else s
  | EmptyString => s
  end.

Fixpoint trimEnd (s : string) : string :=
  match s with
  | String c s' =>
      match trimEnd s' with
      | EmptyString => if isStrWhiteSpace c then "" else String c ""
      | r => String c r
      end
  | EmptyString => ""
  end.

Definition trim (s : string) : string := trimEnd (trimStart s).

(** The value of a digit in the given radix. *)
Definition digitValue (radix : Z) (c : ascii) : option Z :=
  let n := Z.of_nat (nat_of_ascii c) in
  let d :=
    if (48 <=? n) && (n <=? 57) then n - 48
    else if (97 <=? n) && (n <=? 102) then n - 87
    else if (65 <=? n) && (n <=? 70) then n - 55
    else radix in
  if d <? radix then Some d else None.

(** Reads the longest run of digits: its value on top of [acc], the
    number of digits read on top of [cnt], and the rest of the input. *)
Fixpoint readDigits (radix : Z) (s : string) (acc cnt : Z) : Z * Z * string :=
  match s with
  | String c s' =>
      match digitValue radix c with
      | Some d => readDigits radix s' (acc * radix + d) (cnt + 1)
      | None => (acc, cnt, s)
      end
  | EmptyString => (acc, cnt, s)
  end.

(** The double nearest to [mant * 10^exp10] (ties to even), with the
    sign [neg]. *)
Definition roundDecimal (neg : bool) (mant exp10 : Z) : float :=
  if mant =? 0 then (if neg then (-0)%float else 0%float)
  else if 0 <=? exp10 then
    SF2Prim (binary_normalize prec emax
               (cond_Zopp neg (mant * 10 ^ exp10)) 0 neg)
  else
    let '(q, e, l) := SFdiv_core_binary prec emax mant 0 (10 ^ (- exp10)) 0 in
    SF2Prim (binary_round_aux prec emax neg q e l).

Definition readSign (s : string) : bool * string :=
  match s with
  | String "-" s' => (true, s')
  | String "+" s' => (false, s')
  | _ => (false, s)
  end.

(** The exponent part of a decimal literal, if the rest of the input is
    one (or is empty). *)
Definition readExponent (s : string) : option Z :=
  match s with
  | EmptyString => Some 0
  | String c s' =>
      if (c =? "e")%char || (c =? "E")%char then
        let '(neg, s'') := readSign s' in
        match readDigits 10 s'' 0 0 with
        | (e, cnt, EmptyString) =>
            if 0 <? cnt then Some (if neg then - e else e) else None
        | _ => None
        end
      else None
  end.

Definition strDecimalLiteral (s : string) : float :=
  let '(neg, s1) := readSign s in
  if (s1 =? "Infinity")%string then (if neg then neg_infinity else infinity)
  else
    let '(int, icnt, s2) := readDigits 10 s1 0 0 in
    let '(mant, fcnt, s3) :=
      match s2 with
      | String "." s2' => readDigits 10 s2' int 0
      | _ => (int, 0, s2)
      end in
    if icnt + fcnt =? 0 then nan
    else
      match readExponent s3 with
      | Some e => roundDecimal neg mant (e - fcnt)
      | None => nan
      end.

Definition nonDecimalIntegerLiteral (radix : Z) (s : string) : float :=
  match readDigits radix s 0 0 with
  | (n, cnt, EmptyString) => if 0 <? cnt then roundDecimal false n 0 else nan
  | _ => nan
  end.

Definition StringToNumber (str : string) : float :=
  match trim str with
  | EmptyString => 0%float
  | String "0" (String c s') as lit =>
      if (c =? "x")%char || (c =? "X")%char then nonDecimalIntegerLiteral 16 s'
      else if (c =? "o")%char || (c =? "O")%char then nonDecimalIntegerLiteral 8 s'
      else if (c =? "b")%char || (c =? "B")%char then nonDecimalIntegerLiteral 2 s'
      else strDecimalLiteral lit
  | lit => strDecimalLiteral lit
  end.

(** *** ToNumber, isNaN, Number, multiplication *)

Definition ToNumber (v : value) : float :=
  match v with
  | VUndefined => nan
  | VNull => 0%float
  | VBool true => 1%float
  | VBool false => 0%float
  | VNum n => n
  | VStr s => StringToNumber s
  | VDate t => t
  end.

Definition isNaN (v : value) : bool := is_nan (ToNumber v).

Definition Number (v : value) : value := VNum (ToNumber v).

(** [v * f] for a number [f]. *)
Definition times (v : value) (f : float) : float := PrimFloat.mul (ToNumber v) f.

(** A number is falsy when it is [+0], [-0] or [NaN]. *)
Definition falsyNumber (f : float) : bool := PrimFloat.eqb f 0 || is_nan f.

(** *** Math.max *)

Definition isNegativeZero (f : float) : bool :=
  match Prim2SF f with
  | S754_zero true => true
  | _ => false
  end.

Definition max2 (a b : float) : float :=
  if is_nan a || is_nan b then nan
  else if PrimFloat.ltb a b then b
  else if PrimFloat.ltb b a then a
  else if isNegativeZero a then b
  else a.

Definition Math_max (args : list value) : float :=
  fold_left (fun acc v => max2 acc (ToNumber v)) args neg_infinity.

(** *** Strings *)

Definition toLowerChar (c : ascii) : ascii :=
  let n := nat_of_ascii c in
  if ((65 <=? n) && (n <=? 90))%nat then ascii_of_nat (n + 32) else c.

Fixpoint toLowerCase (s : string) : string :=
  match s with
  | EmptyString => EmptyString
  | String c s' => String (toLowerChar c) (toLowerCase s')
  end.

(** [s.includes(pat)]: [pat] occurs in [s] at some position. *)
Fixpoint includes (s pat : string) : bool :=
  String.prefix pat s ||
  match s with
  | EmptyString => false
  | String _ s' => includes s' pat
  end.

(** A string is falsy when it is empty. *)
Definition falsyString (s : string) : bool := (s =? "")%string.

(** [s.split(sep)] for a one-character separator. *)
Fixpoint split (sep : ascii) (s : string) : list string :=
  match s with
  | EmptyString => [""%string]
  | String c s' =>
      match split sep s' with
      | piece :: rest =>
          if (c =? sep)%char then ""%string :: piece :: rest
          else String c piece :: rest
      | [] => []
      end
  end.

(** [parts.join(sep)]. *)
Fixpoint join (sep : string) (parts : list string) : string :=
  match parts with
  | [] => ""
  | [p] => p
  | p :: rest => p +:+ sep +:+ join sep rest
  end.

(** [arr.slice(0, -1)]. *)
Definition dropLast {A} (l : list A) : list A := removelast l.

End JS.

Import JS.

(** ** Data shared by the three variants *)

(** A parsed CSV row: an object from field name to cell.  The order of
    the keys of an object is not modelled. *)
Abbreviation row := (gmap string value).

(** [row[key]] *)
Definition get (r : row) (key : string) : value :=
  match r !! key with
  | Some v => v
  | None => VUndefined
  end.

(** [Object.keys(row)] *)
Definition Object_keys (r : row) : list string := (map_to_list r).*1.

(** A Plotly trace as [generateGraph] builds it. *)
Module Plotly.
Record trace : Type := Trace {
  x : list float;
  y : list float;
  mode : string;
  name : string
}.

(** The points of a line trace: Plotly pairs [x] and [y] by index and
    stops at the shorter of the two. *)
Definition points (t : trace) : list (float * float) := zip (x t) (y t).
End Plotly.

(** The [useState] cells of [App].  [isFullScreen] is not a cell of the
    component of [part_000], whose handlers never mention it. *)
Record State : Type := mkState {
  csvData : list row;
  fields : list string;
  selectedFields : list string;
  scalingFactors : gmap string float;
  data : list Plotly.trace;
  xAxisField : string;
  xAxisScalingFactor : float;
  showForm : bool;
  isFullScreen : bool;
  fileName : string
}.

Definition initialState : State :=
  mkState [] [] [] ∅ [] "" 1 true false "".

Definition setCsvData (v : list row) (s : State) : State :=
  mkState v (fields s) (selectedFields s) (scalingFactors s) (data s)
    (xAxisField s) (xAxisScalingFactor s) (showForm s) (isFullScreen s) (fileName s).
Definition setFields (v : list string) (s : State) : State :=
  mkState (csvData s) v (selectedFields s) (scalingFactors s) (data s)
    (xAxisField s) (xAxisScalingFactor s) (showForm s) (isFullScreen s) (fileName s).
Definition setSelectedFields (v : list string) (s : State) : State :=
  mkState (csvData s) (fields s) v (scalingFactors s) (data s)
    (xAxisField s) (xAxisScalingFactor s) (showForm s) (isFullScreen s) (fileName s).
Definition setScalingFactors (v : gmap string float) (s : State) : State :=
  mkState (csvData s) (fields s) (selectedFields s) v (data s)
    (xAxisField s) (xAxisScalingFactor s) (showForm s) (isFullScreen s) (fileName s).
Definition setData (v : list Plotly.trace) (s : State) : State :=
  mkState (csvData s) (fields s) (selectedFields s) (scalingFactors s) v
    (xAxisField s) (xAxisScalingFactor s) (showForm s) (isFullScreen s) (fileName s).
Definition setXAxisField (v : string) (s : State) : State :=
  mkState (csvData s) (fields s) (selectedFields s) (scalingFactors s) (data s)
    v (xAxisScalingFactor s) (showForm s) (isFullScreen s) (fileName s).
Definition setXAxisScalingFactor (v : float) (s : State) : State :=
  mkState (csvData s) (fields s) (selectedFields s) (scalingFactors s) (data s)
    (xAxisField s) v (showForm s) (isFullScreen s) (fileName s).
Definition setShowForm (v : bool) (s : State) : State :=
  mkState (csvData s) (fields s) (selectedFields s) (scalingFactors s) (data s)
    (xAxisField s) (xAxisScalingFactor s) v (isFullScreen s) (fileName s).
Definition setIsFullScreen (v : bool) (s : State) : State :=
  mkState (csvData s) (fields s) (selectedFields s) (scalingFactors s) (data s)
    (xAxisField s) (xAxisScalingFactor s) (showForm s) v (fileName s).
Definition setFileName (v : string) (s : State) : State :=
  mkState (csvData s) (fields s) (selectedFields s) (scalingFactors s) (data s)
    (xAxisField s) (xAxisScalingFactor s) (showForm s) (isFullScreen s) v.

(** What a handler does besides updating the state. *)
Inductive event : Type :=
  | Alert (message : string)
  | UncaughtTypeError (message : string).

(** The values of [scalingOptions]. *)
Definition scalingOptions : list float :=
  [0.001; 0.01; 0.1; 1; 10; 100; 1000]%float.

(** [scalingFactors[field] || 1] *)
Definition factorOr1 (factors : gmap string float) (field : string) : float :=
  match factors !! field with
  | Some f => if falsyNumber f then 1%float else f
  | None => 1%float
  end.

(** [arr.filter(v => v !== null)] on an array of numbers and [null]s. *)
Fixpoint filterNotNull (l : list (option float)) : list float :=
  match l with
  | [] => []
  | Some v :: l' => v :: filterNotNull l'
  | None :: l' => filterNotNull l'
  end.

(** [file.name.split('.').slice(0, -1).join('.')] *)
Definition removeExtension (name : string) : string :=
  join "." (dropLast (split "." name)).

Definition handleFieldChange (field : string) (s : State) : State :=
  let prev := selectedFields s in
  setSelectedFields
    (if existsb (String.eqb field) prev
     then List.filter (fun f => negb (String.eqb f field)) prev
     else prev ++ [field])
    s.

Definition isPercentageField (fieldName : string) : bool :=
  let lowerFieldName := toLowerCase fieldName in
  includes lowerFieldName "percent" || includes lowerFieldName "%".

(** ** The first component of [src/src/App.jsx] (lines 1-160): no
    scaling heuristic, no filtering of cells *)

Module AppA.

(** [handleFileUpload], with the [complete] callback of the parser run
    on [resultData], the rows the parser produced for the file. *)
Definition handleFileUpload (name : string) (resultData : list row)
    (s : State) : State * list event :=
  let s := setFileName (removeExtension name) s in
  let csvData := resultData in
  let s := setCsvData csvData s in
  match csvData with
  | [] => (s, [UncaughtTypeError "Cannot convert undefined or null to object"])
  | row0 :: _ =>
      let fieldNames := Object_keys row0 in
      (setFields fieldNames s, [])
  end.

Definition handleScalingChange (field : string) (factor : float)
    (s : State) : State :=
  setScalingFactors (<[field := factor]> (scalingFactors s)) s.

Definition formatScalingFactor (factor : float) : string :=
  if PrimFloat.eqb factor 1 then ""
  else " (/ " +:+ numberToString (1 / factor) +:+ ")".

Definition generateGraph (s : State) : State * list event :=
  if falsyString (xAxisField s) then
    (s, [Alert "Please select an X-Axis field."])
  else
    let plotData :=
      map (fun field =>
             Plotly.Trace
               (map (fun row => times (get row (xAxisField s)) (xAxisScalingFactor s))
                    (csvData s))
               (map (fun row => times (get row field) (factorOr1 (scalingFactors s) field))
                    (csvData s))
               "lines"
               (field +:+ formatScalingFactor (factorOr1 (scalingFactors s) field)))
          (selectedFields s) in
    (setShowForm false (setData plotData s), []).

End AppA.

(** ** What the second component of [src/src/App.jsx] (lines 161-364)
    and the component of [src/unnamed/part_000] share word for word.
    The two differ in [calculateScalingFactor], taken here as [calc]. *)

Module Scaled.

(** The body of [result.data.map(row => ...)]: every cell that
    [isNaN] does not reject becomes a number. *)
Definition convertRow (r : row) : row :=
  (fun cell => if isNaN cell then cell else Number cell) <$> r.

(** [Math.max(...csvData.map(row => isNaN(row[field]) ? 0 : row[field]))] *)
Definition maxValue (csvData : list row) (field : string) : float :=
  Math_max (map (fun row => if isNaN (get row field) then VNum 0 else get row field)
                csvData).

(** The [forEach] that fills [newScalingFactors]. *)
Definition autoScalingFactors (calc : float -> string -> float)
    (csvData : list row) (fieldNames : list string) : gmap string float :=
  fold_left (fun newScalingFactors field =>
               <[field := calc (maxValue csvData field) field]> newScalingFactors)
            fieldNames ∅.

Definition handleFileUpload (calc : float -> string -> float)
    (name : string) (resultData : list row) (s : State) : State * list event :=
  let s := setFileName (removeExtension name) s in
  let csvData := map convertRow resultData in
  let s := setCsvData csvData s in
  match csvData with
  | [] => (s, [UncaughtTypeError "Cannot convert undefined or null to object"])
  | row0 :: _ =>
      let fieldNames := Object_keys row0 in
      let s := setFields fieldNames s in
      (setScalingFactors (autoScalingFactors calc csvData fieldNames) s, [])
  end.

Definition handleScalingChange (field : string) (factor : float)
    (s : State) : State :=
  if String.eqb field (xAxisField s) then setXAxisScalingFactor factor s
  else setScalingFactors (<[field := factor]> (scalingFactors s)) s.


Definition formatScalingFactor (factor : float) : string :=
  if PrimFloat.eqb factor 1 then ""
  else " / " +:+ numberToString (1 / factor).

(** One column of a trace:
    [csvData.map(row => !isNaN(row[field]) ? row[field] * factor : null)
            .filter(v => v !== null)] *)
Definition column (csvData : list row) (field : string) (factor : float)
    : list float :=
  filterNotNull
    (map (fun row => if negb (isNaN (get row field))
                     then Some (times (get row field) factor)
                     else None)
         csvData).

Definition generateGraph (s : State) : State * list event :=
  if falsyString (xAxisField s) then
    (s, [Alert "Please select an X-Axis field."])
  else
    let xAxisNormalizationFactor := xAxisScalingFactor s in
    let plotData :=
      map (fun field =>
             let yAxisNormalizationFactor := factorOr1 (scalingFactors s) field in
             Plotly.Trace
               (column (csvData s) (xAxisField s) xAxisNormalizationFactor)
               (column (csvData s) field yAxisNormalizationFactor)
               "lines"
               (field +:+ formatScalingFactor yAxisNormalizationFactor))
          (selectedFields s) in
    (setShowForm false (setData plotData s), []).

End Scaled.

(** ** The second component of [src/src/App.jsx] (lines 161-364) *)

Module AppB.

Definition calculateScalingFactor (maxValue : float) (fieldName : string)
    : float :=
  (if isPercentageField fieldName then 0.01
  else if maxValue =? 0 then 1
  else if 1000 <=? maxValue then 0.001
  else if (500 <? maxValue) && (maxValue <=? 1000) then 0.001
  else if (100 <? maxValue) && (maxValue <=? 500) then 0.01
  else if (50 <? maxValue) && (maxValue <=? 100) then 0.01
  else if (10 <? maxValue) && (maxValue <=? 50) then 0.1
  else if (1 <? maxValue) && (maxValue <=? 10) then 1
  else 1)%float.

Definition handleFileUpload := Scaled.handleFileUpload calculateScalingFactor.
Definition generateGraph := Scaled.generateGraph.

End AppB.

(** ** The component of [src/unnamed/part_000] *)

Module AppC.

Definition calculateScalingFactor (maxValue : float) (fieldName : string)
    : float :=
  (if isPercentageField fieldName then 0.01
  else if maxValue =? 0 then 1
  else if 1000 <=? maxValue then 0.001
  else if (100 <? maxValue) && (maxValue <=? 1000) then 0.001
  else if (50 <? maxValue) && (maxValue <=? 100) then 0.01
  else if (10 <? maxValue) && (maxValue <=? 50) then 0.1
  else if (1 <? maxValue) && (maxValue <=? 10) then 1
  else 1)%float.

Definition handleFileUpload := Scaled.handleFileUpload calculateScalingFactor.
Definition generateGraph := Scaled.generateGraph.

End AppC.

(** ** Vocabulary of the specification *)

(** [c] is the character [l] or, when [l] is a lower-case letter, its
    upper-case form. *)
Definition sameLetter (c l : ascii) : Prop :=
  c = l \/
  ((97 <= nat_of_ascii l <= 122)%nat /\ (nat_of_ascii c + 32 = nat_of_ascii l)%nat).

(** [w] spells [pat] in some mix of letter cases. *)
Inductive anyCase : string -> string -> Prop :=
  | anyCase_nil : anyCase "" ""
  | anyCase_cons c l w pat :
      sameLetter c l -> anyCase w pat -> anyCase (String c w) (String l pat).

(** [name] contains [pat] in any letter case. *)
Definition containsAnyCase (name pat : string) : Prop :=
  exists pre w post, name = pre +:+ w +:+ post /\ anyCase w pat.

(** A cell that holds a number (and not [NaN]). *)
Definition isNumberCell (v : value) : bool :=
  match v with
  | VNum n => negb (is_nan n)
  | _ => false
  end.

(** The raw values of a column. *)
Definition rawColumn (csvData : list row) (field : string) : list float :=
  map (fun row => ToNumber (get row field)) csvData.


(** The label suffix of every scaling option, nothing for 1 and the
    inverse factor otherwise: first as the two components with the
    heuristic write it, then in the notation of the first component. *)
Definition suffixTable : list (float * string * string) :=
  [ (0.001, " / 1000", " (/ 1000)"); (0.01, " / 100", " (/ 100)");
    (0.1, " / 10", " (/ 10)"); (1, "", "");
    (10, " / 0.1", " (/ 0.1)"); (100, " / 0.01", " (/ 0.01)");
    (1000, " / 0.001", " (/ 0.001)") ]%float.

(** ** Sample inputs *)

(** The data set [[{x:1,y:"a"},{x:2,y:5}]]. *)
Definition mixedRows : list row :=
  [ {[ "x" := VNum 1; "y" := VStr "a" ]}; {[ "x" := VNum 2; "y" := VNum 5 ]} ].

(** X field [x], Y field [y], every factor 1. *)
Definition mixedState : State :=
  setSelectedFields ["y"] (setXAxisField "x" (setCsvData mixedRows initialState)).

(** A state that holds a chart but no X field. *)
Definition chartWithoutX : State :=
  mkState mixedRows ["x"; "y"] ["y"] {[ "y" := 0.1%float ]}
    [Plotly.Trace [1%float] [2%float] "lines" "y"] "" 10 true false "sample".

(** An all-numeric data set with X field [x], Y fields [y] and [z] and
    every factor 1 ([z] by default). *)
Definition numericRows : list row :=
  [ {[ "x" := VNum 1; "y" := VNum 10; "z" := VNum (-2.5) ]};
    {[ "x" := VNum 2; "y" := VNum 20; "z" := VNum 0.5 ]} ].

Definition numericState : State :=
  mkState numericRows ["x"; "y"; "z"] ["y"; "z"] {[ "y" := 1%float ]}
    [] "x" 1 true false "sample".

(** The same rows with [y] both selected as a Y field and scaled by
    0.01. *)
Definition scaledState : State :=
  mkState numericRows ["x"; "y"; "z"] ["z"; "y"] {[ "y" := 0.01%float ]}
    [] "x" 1 true false "sample".


(** ** The scale drop-downs *)

Module Controls.

(** The [value] attribute of the [<option>] of a scaling factor:
    [String(option.value)]. *)
Definition optionValue (factor : float) : string := numberToString factor.

(** [onChange={(e) => setXAxisScalingFactor(Number(e.target.value))}],
    the X scale drop-down of the three components. *)
Definition onXScaleChange (value : string) (s : State) : State :=
  setXAxisScalingFactor (ToNumber (VStr value)) s.

(** [onChange={(e) => handleScalingChange(field, Number(e.target.value))}],
    the scale drop-down of a Y field in the two components with the
    heuristic. *)
Definition onScaleChange (field value : string) (s : State) : State :=
  Scaled.handleScalingChange field (ToNumber (VStr value)) s.

(** The same drop-down in the first component. *)
Definition onScaleChangeA (field value : string) (s : State) : State :=
  AppA.handleScalingChange field (ToNumber (VStr value)) s.

End Controls.

(** ** The PNG export of the two components of [src/src/App.jsx] *)

Module Download.

(** What [downloadImage] ends in: the download of the captured image
    under a file name, or a line on the console. *)
Inductive outcome : Type :=
  | Downloaded (dataUrl fileName : string)
  | ConsoleError (message : string).

(** [str.replace(/[:.]/g, '-')] *)
Fixpoint replaceColonDot (str : string) : string :=
  match str with
  | EmptyString => EmptyString
  | String c str' =>
      String (if (c =? ":")%char || (c =? ".")%char then "-"%char else c)
             (replaceColonDot str')
  end.

(** [downloadImage], given the text [new Date().toISOString()] returned
    and how [toPng] settled: [Some dataUrl] when it resolved, [None]
    when it rejected. *)
Definition downloadImage (isoTime : string) (capture : option string)
    (s : State) : outcome :=
  let timestamp := replaceColonDot isoTime in
  match capture with
  | Some dataUrl => Downloaded dataUrl (fileName s +:+ "-" +:+ timestamp +:+ ".png")
  | None => ConsoleError "Failed to download image"
  end.

End Download.

(** ** Further vocabulary and sample inputs *)

(** The character [c] occurs in [s]. *)
Fixpoint hasChar (c : ascii) (s : string) : bool :=
  match s with
  | EmptyString => false
  | String d s' => (d =? c)%char || hasChar c s'
  end.

(** Every character of [s] is white space. *)
Fixpoint isBlank (s : string) : bool :=
  match s with
  | EmptyString => true
  | String c s' => isStrWhiteSpace c && isBlank s'
  end.

(** The magnitude rules of the component of [part_000] as one table. *)
Definition bucketC (maxValue : float) : float :=
  (if 100 <? maxValue then 0.001
   else if 50 <? maxValue then 0.01
   else if 10 <? maxValue then 0.1
   else 1)%float.

(** The magnitude rules of the second component of [App.jsx] as one
    table. *)
Definition bucketB (maxValue : float) : float :=
  (if 500 <? maxValue then 0.001
   else if 50 <? maxValue then 0.01
   else if 10 <? maxValue then 0.1
   else 1)%float.

(** Rows whose X and Y cells are numeric together or not at all. *)
Definition pairedRows : list row :=
  [ {[ "x" := VStr "n/a"; "y" := VStr "?" ]};
    {[ "x" := VNum 2; "y" := VNum 5 ]};
    {[ "x" := VNum 3; "y" := VNum 7 ]} ].

Definition pairedState : State :=
  mkState pairedRows ["x"; "y"] ["y"] {[ "y" := 0.1%float ]}
    [] "x" 1 true false "sample".


(** ** Binary64 facts *)

Section Binary64.

Lemma digits2_pos_shift52 (m : positive) :
  Z.pos (digits2_pos (4503599627370496 * m)) = Z.pos (digits2_pos m) + 52.
Proof.
  change (4503599627370496 * m)%positive with (Pos.iter xO m 52%positive).
  cbn [Pos.iter digits2_pos].
  repeat rewrite Pos2Z.inj_succ. lia.
Qed.

(** Multiplying a valid binary64 by one is exact: the product of the
    mantissas is shifted back by the 52 bits it gained. *)
Lemma SF64mul_one_r (x : spec_float) :
  valid_binary x = true ->
  SF64mul x (S754_finite false 4503599627370496 (-52)) = x.
Proof.
  destruct x as [s | s | | s m e]; cbn [SF64mul SFmul valid_binary];
    rewrite ?xorb_false_r; try reflexivity.
  intros Hb. unfold bounded, canonical_mantissa in Hb.
  apply andb_true_iff in Hb as [Hc He].
  apply Z.eqb_eq in Hc.
  unfold binary_round_aux, shr_fexp.
  rewrite Pos.mul_comm.
  cbn [Zdigits2]. rewrite digits2_pos_shift52.
  replace (Z.pos (digits2_pos m) + 52 + (e + -52))
    with (Z.pos (digits2_pos m) + e) by lia.
  rewrite Hc.
  replace (e - (e + -52)) with 52 by lia.
  change (4503599627370496 * m)%positive with (Pos.iter xO m 52%positive).
  cbn [Pos.iter shr shr_record_of_loc SpecFloat.iter_pos shr_1 orb
       loc_of_shr_record round_nearest_even shr_m].
  replace (e + -52 + 52) with e by lia.
  cbn [Zdigits2]. rewrite Hc, Z.sub_diag.
  cbn [shr shr_record_of_loc shr_m].
  rewrite He. reflexivity.
Qed.

Lemma mul_one_r (x : float) : (x * 1)%float = x.
Proof.
  apply Prim2SF_inj. rewrite FloatAxioms.mul_spec.
  change (Prim2SF 1) with (S754_finite false 4503599627370496 (-52)).
  apply SF64mul_one_r, Prim2SF_valid.
Qed.

Lemma ltb_500_100 (m : float) :
  (500 <? m)%float = true -> (100 <? m)%float = true.
Proof.
  rewrite !FloatAxioms.ltb_spec.
  change (Prim2SF 500) with (S754_finite false 8796093022208000 (-44)).
  change (Prim2SF 100) with (S754_finite false 7036874417766400 (-46)).
  destruct (Prim2SF m) as [s | s | | s mm e]; unfold SFltb, SFcompare;
    try destruct s; try discriminate; try reflexivity.
  destruct (Z.compare_spec (-44) e) as [He | He | He];
    destruct (Z.compare_spec (-46) e) as [He' | He' | He'];
    try lia; try discriminate; reflexivity.
Qed.

Lemma leb_500_1000 (m : float) :
  (m <=? 500)%float = true -> (m <=? 1000)%float = true.
Proof.
  rewrite !FloatAxioms.leb_spec.
  change (Prim2SF 500) with (S754_finite false 8796093022208000 (-44)).
  change (Prim2SF 1000) with (S754_finite false 8796093022208000 (-43)).
  destruct (Prim2SF m) as [s | s | | s mm e]; unfold SFleb, SFcompare;
    try destruct s; try discriminate; try reflexivity.
  destruct (Z.compare_spec e (-44)) as [He | He | He];
    destruct (Z.compare_spec e (-43)) as [He' | He' | He'];
    try lia; try discriminate; reflexivity.
Qed.

(** The order of binary64: [<=] is reflexive away from [NaN],
    transitive, and total away from [NaN]. *)
Ltac cases_compare :=
  repeat match goal with
    | H : context [Pos.compare_cont Eq ?a ?b] |- _ =>
        change (Pos.compare_cont Eq a b) with (Pos.compare a b) in H
    | |- context [Pos.compare_cont Eq ?a ?b] =>
        change (Pos.compare_cont Eq a b) with (Pos.compare a b)
    end;
  repeat match goal with
    | H : context [Z.compare ?a ?b] |- _ =>
        destruct (Z.compare_spec a b); cbn in H |- *
    | H : context [Pos.compare ?a ?b] |- _ =>
        destruct (Pos.compare_spec a b); cbn in H |- *
    | |- context [Z.compare ?a ?b] => destruct (Z.compare_spec a b); cbn
    | |- context [Pos.compare ?a ?b] => destruct (Pos.compare_spec a b); cbn
    end;
  try discriminate; try reflexivity; try lia.


Lemma SFleb_refl (x : spec_float) : x <> S754_nan -> SFleb x x = true.
Proof.
  unfold SFleb. destruct x as [[] | [] | | [] mx ex]; cbn; try congruence;
    intros _; cases_compare.
Qed.

Lemma SFltb_false_leb (x y : spec_float) :
  x <> S754_nan -> y <> S754_nan -> SFltb x y = false -> SFleb y x = true.
Proof.
  unfold SFltb, SFleb.
  destruct x as [[] | [] | | [] mx ex], y as [[] | [] | | [] my ey];
    cbn; try congruence; intros _ _ H; cases_compare.
Qed.

Lemma SFltb_leb (x y : spec_float) : SFltb x y = true -> SFleb x y = true.
Proof.
  unfold SFltb, SFleb. destruct (SFcompare x y) as [[] |]; congruence.
Qed.

Lemma is_nan_false (a : float) : is_nan a = false -> Prim2SF a <> S754_nan.
Proof.
  unfold is_nan. rewrite FloatAxioms.eqb_spec. intros H E. rewrite E in H. discriminate H.
Qed.



Lemma ltb_leb (a b : float) : (a <? b)%float = true -> (a <=? b)%float = true.
Proof. rewrite FloatAxioms.ltb_spec, FloatAxioms.leb_spec. apply SFltb_leb. Qed.

Lemma ltb_false_leb (a b : float) :
  is_nan a = false -> is_nan b = false ->
  (a <? b)%float = false -> (b <=? a)%float = true.
Proof.
  intros Ha Hb. rewrite FloatAxioms.ltb_spec, FloatAxioms.leb_spec.
  apply SFltb_false_leb; now apply is_nan_false.
Qed.


End Binary64.

(** ** Strings: case mapping and substring search *)

Section Strings.

Lemma append_cons (c : ascii) (a b : string) :
  String c a +:+ b = String c (a +:+ b).
Proof. reflexivity. Qed.

Lemma append_nil_l (s : string) : "" +:+ s = s.
Proof. reflexivity. Qed.

Lemma append_nil_r (s : string) : s +:+ "" = s.
Proof.
  induction s as [| c s IH]; [reflexivity |].
  rewrite append_cons, IH. reflexivity.
Qed.

Lemma append_assoc (a b c : string) : (a +:+ b) +:+ c = a +:+ (b +:+ c).
Proof.
  induction a as [| x a IH]; [reflexivity |].
  rewrite !append_cons, IH. reflexivity.
Qed.

Lemma toLowerCase_app (a b : string) :
  toLowerCase (a +:+ b) = toLowerCase a +:+ toLowerCase b.
Proof.
  induction a as [| c a IH]; [reflexivity |].
  rewrite append_cons. cbn [toLowerCase]. rewrite append_cons, IH. reflexivity.
Qed.

(** Splitting the lower-cased name splits the name. *)
Lemma toLowerCase_split (name a b : string) :
  toLowerCase name = a +:+ b ->
  exists a' b', name = a' +:+ b' /\ toLowerCase a' = a /\ toLowerCase b' = b.
Proof.
  revert name. induction a as [| c a IH]; intros name H.
  - exists ""%string, name. rewrite append_nil_l in *. auto.
  - rewrite append_cons in H.
    destruct name as [| d name]; cbn [toLowerCase] in H; [discriminate |].
    injection H as Hc Hrest.
    destruct (IH _ Hrest) as (a' & b' & -> & Ha & Hb).
    exists (String d a'), b'. cbn [toLowerCase]. rewrite Hc, Ha. auto.
Qed.

Lemma prefix_app (p s : string) : String.prefix p (p +:+ s) = true.
Proof.
  induction p as [| c p IH]; [destruct s; reflexivity |].
  rewrite append_cons. cbn [String.prefix].
  destruct (ascii_dec c c); [assumption | congruence].
Qed.

Lemma prefix_elim (p s : string) :
  String.prefix p s = true -> exists post, s = p +:+ post.
Proof.
  revert s. induction p as [| c p IH]; intros s H.
  - exists s. reflexivity.
  - destruct s as [| d s]; cbn [String.prefix] in H.
    + destruct (string_dec (String c p) ""); discriminate.
    + destruct (ascii_dec c d) as [-> | ]; [| discriminate].
      destruct (IH _ H) as [post ->]. exists post. reflexivity.
Qed.

Lemma includes_prefix (s pat : string) :
  String.prefix pat s = true -> includes s pat = true.
Proof. intros H. destruct s; cbn [includes]; rewrite H; reflexivity. Qed.

Lemma includes_intro (pre pat post : string) :
  includes (pre +:+ pat +:+ post) pat = true.
Proof.
  induction pre as [| c pre IH].
  - rewrite append_nil_l. apply includes_prefix, prefix_app.
  - rewrite append_cons. cbn [includes]. rewrite IH. apply orb_true_r.
Qed.

Lemma includes_elim (s pat : string) :
  includes s pat = true -> exists pre post, s = pre +:+ pat +:+ post.
Proof.
  induction s as [| c s IH]; cbn [includes]; intros H.
  - rewrite orb_false_r in H. apply prefix_elim in H as [post ->].
    exists ""%string, post. reflexivity.
  - apply orb_true_iff in H as [H | H].
    + apply prefix_elim in H as [post ->]. exists ""%string, post. reflexivity.
    + destruct (IH H) as (pre & post & ->). exists (String c pre), post. reflexivity.
Qed.

Lemma toLowerChar_sameLetter (c : ascii) : sameLetter c (toLowerChar c).
Proof.
  unfold sameLetter, toLowerChar.
  destruct (Nat.leb_spec 65 (nat_of_ascii c)); cbn [andb]; auto.
  destruct (Nat.leb_spec (nat_of_ascii c) 90); auto.
  right. rewrite nat_ascii_embedding by lia. lia.
Qed.

Lemma sameLetter_toLowerChar (c l : ascii) :
  sameLetter c l -> toLowerChar l = l -> toLowerChar c = l.
Proof.
  intros [-> | [Hl Hc]] Hfix; [assumption |].
  unfold toLowerChar.
  destruct (Nat.leb_spec 65 (nat_of_ascii c)); [| lia].
  destruct (Nat.leb_spec (nat_of_ascii c) 90); [| lia].
  cbn [andb]. rewrite Hc. apply ascii_nat_embedding.
Qed.

Lemma toLowerCase_anyCase (w : string) : anyCase w (toLowerCase w).
Proof.
  induction w as [| c w IH]; cbn; constructor; auto using toLowerChar_sameLetter.
Qed.

Lemma anyCase_toLowerCase (w pat : string) :
  anyCase w pat -> toLowerCase pat = pat -> toLowerCase w = pat.
Proof.
  induction 1 as [| c l w pat Hc _ IH]; cbn; intros Hfix; [reflexivity |].
  injection Hfix as Hl Hpat.
  rewrite (sameLetter_toLowerChar _ _ Hc Hl), (IH Hpat). reflexivity.
Qed.

(** [name.toLowerCase().includes(pat)] says exactly that [name]
    contains [pat] in some letter case, for a pattern without capitals. *)
Lemma includes_toLowerCase (name pat : string) :
  toLowerCase pat = pat ->
  includes (toLowerCase name) pat = true <-> containsAnyCase name pat.
Proof.
  intros Hfix. split.
  - intros H. apply includes_elim in H as (pre & post & H).
    apply toLowerCase_split in H as (pre' & rest & -> & _ & H).
    apply toLowerCase_split in H as (w & post' & -> & Hw & _).
    exists pre', w, post'. split; [reflexivity |].
    rewrite <- Hw. apply toLowerCase_anyCase.
  - intros (pre & w & post & -> & Hw).
    rewrite !toLowerCase_app, (anyCase_toLowerCase _ _ Hw Hfix).
    apply includes_intro.
Qed.

Lemma isPercentageField_spec (name : string) :
  isPercentageField name = true <->
  containsAnyCase name "percent" \/ containsAnyCase name "%".
Proof.
  unfold isPercentageField. rewrite orb_true_iff.
  rewrite !includes_toLowerCase by reflexivity. reflexivity.
Qed.

End Strings.

(** ** [Math.max] returns the greatest argument *)

Section MathMax.





End MathMax.

(** ** The scaling heuristic *)

Section Heuristic.

(** C5: a field name that contains "%" or "percent" in any letter case
    scales by 0.01 whatever the maximum is, in both variants of the
    heuristic: the percent rule is tried before every magnitude rule. *)
Theorem percent_rule_has_priority (maxValue : float) (fieldName : string) :
  containsAnyCase fieldName "%" \/ containsAnyCase fieldName "percent" ->
  AppB.calculateScalingFactor maxValue fieldName = 0.01%float /\
  AppC.calculateScalingFactor maxValue fieldName = 0.01%float.
Proof.
  intros H.
  assert (Hp : isPercentageField fieldName = true)
    by (apply isPercentageField_spec; tauto).
  unfold AppB.calculateScalingFactor, AppC.calculateScalingFactor.
  rewrite Hp. split; reflexivity.
Qed.

Lemma percent_rule_has_priority_witness :
  (containsAnyCase "Growth PERCENT" "%" \/
   containsAnyCase "Growth PERCENT" "percent") /\
  (AppB.calculateScalingFactor 0 "Growth PERCENT" = 0.01%float /\
   AppC.calculateScalingFactor 0 "Growth PERCENT" = 0.01%float).
Proof.
  assert (H : containsAnyCase "Growth PERCENT" "%" \/
              containsAnyCase "Growth PERCENT" "percent").
  { right. exists "Growth "%string, "PERCENT"%string, ""%string.
    split; [reflexivity |].
    repeat (constructor; [right; vm_compute; lia |]). constructor. }
  split; [exact H | exact (percent_rule_has_priority 0 "Growth PERCENT" H)].
Defined.

(** C4, as the code has it: for a field name that contains neither
    "%" nor "percent" in any letter case, a maximum of 0 scales by 1,
    in both variants of the heuristic. *)
Theorem zero_scales_to_one (fieldName : string) :
  ~ (containsAnyCase fieldName "%" \/ containsAnyCase fieldName "percent") ->
  AppB.calculateScalingFactor 0 fieldName = 1%float /\
  AppC.calculateScalingFactor 0 fieldName = 1%float.
Proof.
  intros H.
  assert (Hp : isPercentageField fieldName = false).
  { destruct (isPercentageField fieldName) eqn:E; [| reflexivity].
    exfalso. apply H. apply isPercentageField_spec in E. tauto. }
  unfold AppB.calculateScalingFactor, AppC.calculateScalingFactor.
  rewrite Hp. split; reflexivity.
Qed.

Lemma zero_scales_to_one_witness :
  ~ (containsAnyCase "price" "%" \/ containsAnyCase "price" "percent") /\
  (AppB.calculateScalingFactor 0 "price" = 1%float /\
   AppC.calculateScalingFactor 0 "price" = 1%float).
Proof.
  assert (H : ~ (containsAnyCase "price" "%" \/ containsAnyCase "price" "percent")).
  { intros H.
    assert (E : isPercentageField "price" = true)
      by (apply isPercentageField_spec; tauto).
    vm_compute in E. discriminate E. }
  split; [exact H | exact (zero_scales_to_one "price" H)].
Defined.

(** C4 as stated fails: the field name "percent" with a maximum of 0
    scales by 0.01, not by 1. *)
Lemma zero_percent_counterexample :
  ~ (forall fieldName : string,
       AppC.calculateScalingFactor 0 fieldName = 1%float).
Proof.
  intros H. specialize (H "percent"%string).
  apply (f_equal (fun f => PrimFloat.eqb f 1)) in H.
  vm_compute in H. discriminate H.
Qed.

(** C9: outside the interval (100, 1000] the two variants of
    [calculateScalingFactor] return the same factor. *)
Theorem variants_agree_outside_100_1000 (maxValue : float) (fieldName : string) :
  ((100 <? maxValue) && (maxValue <=? 1000))%float = false ->
  AppB.calculateScalingFactor maxValue fieldName =
  AppC.calculateScalingFactor maxValue fieldName.
Proof.
  intros H.
  unfold AppB.calculateScalingFactor, AppC.calculateScalingFactor.
  destruct (isPercentageField fieldName); [reflexivity |].
  destruct (maxValue =? 0)%float; [reflexivity |].
  destruct (1000 <=? maxValue)%float; [reflexivity |].
  rewrite H.
  destruct (500 <? maxValue)%float eqn:H500.
  - rewrite (ltb_500_100 _ H500) in *. cbn [andb] in *. rewrite H.
    destruct (maxValue <=? 500)%float eqn:Hle; [| reflexivity].
    rewrite (leb_500_1000 _ Hle) in H. discriminate H.
  - cbn [andb].
    destruct (100 <? maxValue)%float eqn:H100; [| reflexivity].
    cbn [andb] in *.
    destruct (maxValue <=? 500)%float eqn:Hle; [| reflexivity].
    rewrite (leb_500_1000 _ Hle) in H. discriminate H.
Qed.

Lemma variants_agree_outside_100_1000_witness :
  ((100 <? 50) && (50 <=? 1000))%float = false /\
  AppB.calculateScalingFactor 50 "price" = AppC.calculateScalingFactor 50 "price".
Proof.
  split; [reflexivity |].
  apply (variants_agree_outside_100_1000 50 "price"). reflexivity.
Defined.

(** Inside the interval the two do differ, between 100 and 500. *)
Lemma variants_differ_at_200 :
  AppB.calculateScalingFactor 200 "price" = 0.01%float /\
  AppC.calculateScalingFactor 200 "price" = 0.001%float.
Proof. split; reflexivity. Qed.

End Heuristic.

(** ** The graph-data builder *)

Section Builder.

Lemma falsyString_false (s : string) : s <> "" -> falsyString s = false.
Proof. intros H. unfold falsyString. now apply String.eqb_neq. Qed.

Lemma lookup_map {A B} (f : A -> B) (l : list A) (i : nat) :
  map f l !! i = f <$> (l !! i).
Proof.
  revert i. induction l as [| a l IH]; intros [| i]; cbn; auto.
Qed.

Lemma isNumberCell_numeric (v : value) :
  isNumberCell v = true -> exists n, v = VNum n /\ isNaN v = false.
Proof.
  destruct v as [| | b | n | str | t]; cbn; try discriminate.
  intros H. exists n. split; [reflexivity |].
  unfold isNaN. cbn. now apply negb_true_iff.
Qed.

(** What [generateGraph] stores once an X field is chosen. *)
Lemma generateGraph_data (s : State) :
  xAxisField s <> "" ->
  data (fst (Scaled.generateGraph s)) =
    map (fun field =>
           Plotly.Trace
             (Scaled.column (csvData s) (xAxisField s) (xAxisScalingFactor s))
             (Scaled.column (csvData s) field (factorOr1 (scalingFactors s) field))
             "lines"
             (field +:+ Scaled.formatScalingFactor (factorOr1 (scalingFactors s) field)))
        (selectedFields s).
Proof.
  intros H. unfold Scaled.generateGraph.
  rewrite (falsyString_false _ H). reflexivity.
Qed.

Lemma generateGraphA_data (s : State) :
  xAxisField s <> "" ->
  data (fst (AppA.generateGraph s)) =
    map (fun field =>
           Plotly.Trace
             (map (fun row => times (get row (xAxisField s)) (xAxisScalingFactor s))
                  (csvData s))
             (map (fun row => times (get row field) (factorOr1 (scalingFactors s) field))
                  (csvData s))
             "lines"
             (field +:+ AppA.formatScalingFactor (factorOr1 (scalingFactors s) field)))
        (selectedFields s).
Proof.
  intros H. unfold AppA.generateGraph.
  rewrite (falsyString_false _ H). reflexivity.
Qed.

(** C6: with no X field selected, [generateGraph] raises the alert and
    returns the state it was given, in each of the three components. *)
Theorem generate_without_x_field (s : State) :
  xAxisField s = "" ->
  AppA.generateGraph s = (s, [Alert "Please select an X-Axis field."]) /\
  AppB.generateGraph s = (s, [Alert "Please select an X-Axis field."]) /\
  AppC.generateGraph s = (s, [Alert "Please select an X-Axis field."]).
Proof.
  intros H.
  unfold AppB.generateGraph, AppC.generateGraph,
    AppA.generateGraph, Scaled.generateGraph.
  rewrite H. auto.
Qed.

Lemma generate_without_x_field_witness :
  xAxisField chartWithoutX = "" /\
  (AppA.generateGraph chartWithoutX
     = (chartWithoutX, [Alert "Please select an X-Axis field."]) /\
   AppB.generateGraph chartWithoutX
     = (chartWithoutX, [Alert "Please select an X-Axis field."]) /\
   AppC.generateGraph chartWithoutX
     = (chartWithoutX, [Alert "Please select an X-Axis field."])).
Proof.
  split; [reflexivity |].
  apply (generate_without_x_field chartWithoutX). reflexivity.
Defined.

(** C1, the code at the data set of the claim: the X column keeps both
    rows and the Y column keeps one, so the only point of the trace is
    (1, 5). *)
Theorem mixed_rows_series :
  data (fst (AppC.generateGraph mixedState))
    = [Plotly.Trace [1%float; 2%float] [5%float] "lines" "y"] /\
  data (fst (AppB.generateGraph mixedState))
    = [Plotly.Trace [1%float; 2%float] [5%float] "lines" "y"] /\
  map Plotly.points (data (fst (AppC.generateGraph mixedState)))
    = [[(1%float, 5%float)]].
Proof. repeat split; vm_compute; reflexivity. Qed.

(** A column keeps the rows whose own cell is numeric, whatever the
    other cells of the row are. *)
Lemma column_length (csvData : list row) (field : string) (factor : float) :
  length (Scaled.column csvData field factor)
    = length (List.filter (fun row => negb (isNaN (get row field))) csvData).
Proof.
  unfold Scaled.column.
  induction csvData as [| r rows IH]; [reflexivity |].
  cbn [map List.filter].
  destruct (negb (isNaN (get r field))); cbn [filterNotNull length]; now rewrite IH.
Qed.

(** Every trace carries the same X column, whatever its Y field. *)
Lemma traces_share_x (s : State) (t : Plotly.trace) :
  xAxisField s <> "" ->
  In t (data (fst (Scaled.generateGraph s))) ->
  Plotly.x t = Scaled.column (csvData s) (xAxisField s) (xAxisScalingFactor s).
Proof.
  intros H Ht. rewrite (generateGraph_data _ H) in Ht.
  apply in_map_iff in Ht as (field & <- & _). reflexivity.
Qed.

Lemma column_numeric (csvData : list row) (field : string) :
  (forall row, In row csvData -> isNaN (get row field) = false) ->
  Scaled.column csvData field 1 = rawColumn csvData field.
Proof.
  unfold Scaled.column, rawColumn.
  induction csvData as [| r rows IH]; intros H; [reflexivity |].
  cbn [map filterNotNull].
  rewrite (H r (or_introl eq_refl)). cbn [negb filterNotNull].
  unfold times at 1. rewrite mul_one_r. f_equal.
  apply IH. intros row Hrow. apply H. now right.
Qed.

Lemma map_times_one (csvData : list row) (field : string) :
  map (fun row => times (get row field) 1) csvData = rawColumn csvData field.
Proof.
  unfold rawColumn. apply map_ext. intros row.
  unfold times. apply mul_one_r.
Qed.

Lemma formatScalingFactor_one :
  Scaled.formatScalingFactor 1 = "" /\ AppA.formatScalingFactor 1 = "".
Proof. split; reflexivity. Qed.

(** C8: on a data set whose X and Y cells are all numbers, with factor
    1 on the X axis and on every selected Y field, each of the three
    components builds, per selected field, the trace of the raw X and
    Y columns; its i-th point is the pair of cells of the i-th row. *)
Theorem factor_one_reproduces_columns (s : State) :
  xAxisField s <> "" ->
  xAxisScalingFactor s = 1%float ->
  (forall field, In field (selectedFields s) ->
     factorOr1 (scalingFactors s) field = 1%float) ->
  (forall row field,
     In row (csvData s) -> In field (xAxisField s :: selectedFields s) ->
     isNumberCell (get row field) = true) ->
  let expected :=
    map (fun field =>
           Plotly.Trace (rawColumn (csvData s) (xAxisField s))
                        (rawColumn (csvData s) field) "lines" field)
        (selectedFields s) in
  data (fst (AppA.generateGraph s)) = expected /\
  data (fst (AppB.generateGraph s)) = expected /\
  data (fst (AppC.generateGraph s)) = expected /\
  forall j field i row,
    selectedFields s !! j = Some field -> csvData s !! i = Some row ->
    exists t a b,
      expected !! j = Some t /\
      get row (xAxisField s) = VNum a /\ get row field = VNum b /\
      Plotly.points t !! i = Some (a, b).
Proof.
  intros Hx Hfx Hfy Hnum expected.
  assert (Hscaled : data (fst (Scaled.generateGraph s)) = expected).
  { rewrite (generateGraph_data _ Hx). subst expected.
    apply map_ext_in. intros field Hfield.
    rewrite Hfx, (Hfy _ Hfield).
    rewrite !column_numeric.
    - rewrite (proj1 formatScalingFactor_one), append_nil_r. reflexivity.
    - intros row Hrow.
      destruct (isNumberCell_numeric (get row field)) as (n & _ & Hn); auto.
      apply Hnum; [assumption | now right].
    - intros row Hrow.
      destruct (isNumberCell_numeric (get row (xAxisField s))) as (n & _ & Hn); auto.
      apply Hnum; [assumption | now left]. }
  split; [| split; [exact Hscaled | split; [exact Hscaled |]]].
  - rewrite (generateGraphA_data _ Hx). subst expected.
    apply map_ext_in. intros field Hfield.
    rewrite Hfx, (Hfy _ Hfield), !map_times_one.
    rewrite (proj2 formatScalingFactor_one), append_nil_r. reflexivity.
  - intros j field i row Hj Hi. subst expected.
    assert (Hrow : In row (csvData s))
      by (apply list_elem_of_In; eapply list_elem_of_lookup_2; eassumption).
    assert (Hfield : In field (selectedFields s))
      by (apply list_elem_of_In; eapply list_elem_of_lookup_2; eassumption).
    destruct (isNumberCell_numeric (get row (xAxisField s))) as (a & Ha & _);
      [apply Hnum; [assumption | now left] |].
    destruct (isNumberCell_numeric (get row field)) as (b & Hb & _);
      [apply Hnum; [assumption | now right] |].
    eexists _, a, b. rewrite lookup_map, Hj. cbn [fmap option_fmap option_map].
    split; [reflexivity |]. split; [assumption |]. split; [assumption |].
    unfold Plotly.points. cbn [Plotly.x Plotly.y].
    rewrite lookup_zip_with. unfold rawColumn.
    rewrite !lookup_map, Hi. cbn. rewrite Ha, Hb. reflexivity.
Qed.

Lemma factor_one_reproduces_columns_witness :
  (xAxisField numericState <> "" /\
   xAxisScalingFactor numericState = 1%float /\
   (forall field, In field (selectedFields numericState) ->
      factorOr1 (scalingFactors numericState) field = 1%float) /\
   (forall row field,
      In row (csvData numericState) ->
      In field (xAxisField numericState :: selectedFields numericState) ->
      isNumberCell (get row field) = true)) /\
  data (fst (AppC.generateGraph numericState))
    = [ Plotly.Trace [1; 2]%float [10; 20]%float "lines" "y";
        Plotly.Trace [1; 2]%float [-2.5; 0.5]%float "lines" "z" ].
Proof.
  assert (H1 : xAxisField numericState <> "") by discriminate.
  assert (H2 : xAxisScalingFactor numericState = 1%float) by reflexivity.
  assert (H3 : forall field, In field (selectedFields numericState) ->
                 factorOr1 (scalingFactors numericState) field = 1%float).
  { intros field [<- | [<- | []]]; reflexivity. }
  assert (H4 : forall row field,
                 In row (csvData numericState) ->
                 In field (xAxisField numericState :: selectedFields numericState) ->
                 isNumberCell (get row field) = true).
  { intros row field [<- | [<- | []]] [<- | [<- | [<- | []]]]; reflexivity. }
  split; [auto |].
  destruct (factor_one_reproduces_columns numericState H1 H2 H3 H4)
    as (_ & _ & HC & _).
  exact HC.
Defined.

Lemma suffixTable_options : map (fun e => fst (fst e)) suffixTable = scalingOptions.
Proof. reflexivity. Qed.

Lemma option_has_suffix (factor : float) :
  In factor scalingOptions ->
  exists suffix suffixA, In (factor, suffix, suffixA) suffixTable.
Proof.
  intros H. rewrite <- suffixTable_options in H.
  apply in_map_iff in H as ([[f suffix] suffixA] & <- & H). eauto.
Qed.

(** What the two [formatScalingFactor] return on a row of the table. *)
Lemma formatScalingFactor_table (factor : float) (suffix suffixA : string) :
  In (factor, suffix, suffixA) suffixTable ->
  falsyNumber factor = false /\
  Scaled.formatScalingFactor factor = suffix /\
  AppA.formatScalingFactor factor = suffixA /\
  (factor = 1%float -> suffix = "" /\ suffixA = "") /\
  (factor = 0.01%float -> suffix = " / 100").
Proof.
  intros Hin.
  repeat (destruct Hin as [Hin | Hin];
          [ injection Hin as <- <- <-;
            do 3 (split; [vm_compute; reflexivity |]);
            split; intros E;
            first [ apply (f_equal Prim2SF) in E; vm_compute in E;
                    discriminate E
                  | split; reflexivity
                  | reflexivity ] |]).
  destruct Hin.
Qed.

(** C7: for every scaling option, the label of the series of a field
    with that factor is the field name followed by the suffix the table
    gives for the option: nothing for factor 1, so that the label is the
    field name itself, and " / " with the inverse factor otherwise
    ("{field} / 100" for 0.01); the first component writes the same
    inverse factor as " (/ 100)". *)
Theorem series_label_shows_inverse_factor
    (s : State) (j : nat) (field : string) (factor : float) :
  xAxisField s <> "" ->
  selectedFields s !! j = Some field ->
  scalingFactors s !! field = Some factor ->
  In factor scalingOptions ->
  exists suffix suffixA,
    In (factor, suffix, suffixA) suffixTable /\
    (exists t, data (fst (AppC.generateGraph s)) !! j = Some t /\
               Plotly.name t = field +:+ suffix) /\
    (exists t, data (fst (AppB.generateGraph s)) !! j = Some t /\
               Plotly.name t = field +:+ suffix) /\
    (exists t, data (fst (AppA.generateGraph s)) !! j = Some t /\
               Plotly.name t = field +:+ suffixA) /\
    (factor = 1%float -> field +:+ suffix = field /\ field +:+ suffixA = field) /\
    (factor = 0.01%float -> suffix = " / 100").
Proof.
  intros Hx Hj Hf Hopt.
  destruct (option_has_suffix factor Hopt) as (suffix & suffixA & Hin).
  exists suffix, suffixA. split; [exact Hin |].
  destruct (formatScalingFactor_table _ _ _ Hin)
    as (Htruthy & HfmtS & HfmtA & Hone & Hhundredth).
  assert (Hfac : factorOr1 (scalingFactors s) field = factor)
    by (unfold factorOr1; rewrite Hf, Htruthy; reflexivity).
  assert (HS : exists t, data (fst (Scaled.generateGraph s)) !! j = Some t /\
                         Plotly.name t = field +:+ suffix).
  { rewrite (generateGraph_data _ Hx), lookup_map, Hj.
    eexists. split; [reflexivity |]. cbn [Plotly.name].
    rewrite Hfac, HfmtS. reflexivity. }
  split; [exact HS |]. split; [exact HS |]. split.
  - rewrite (generateGraphA_data _ Hx), lookup_map, Hj.
    eexists. split; [reflexivity |]. cbn [Plotly.name].
    rewrite Hfac, HfmtA. reflexivity.
  - split; [| exact Hhundredth].
    intros E. destruct (Hone E) as [-> ->].
    rewrite append_nil_r. auto.
Qed.

Lemma series_label_shows_inverse_factor_witness :
  (xAxisField scaledState <> "" /\
   selectedFields scaledState !! 1%nat = Some "y"%string /\
   scalingFactors scaledState !! "y"%string = Some 0.01%float /\
   In 0.01%float scalingOptions) /\
  (exists t, data (fst (AppC.generateGraph scaledState)) !! 1%nat = Some t /\
             Plotly.name t = "y / 100").
Proof.
  assert (H1 : xAxisField scaledState <> "") by discriminate.
  assert (H2 : selectedFields scaledState !! 1%nat = Some "y"%string)
    by reflexivity.
  assert (H3 : scalingFactors scaledState !! "y"%string = Some 0.01%float)
    by reflexivity.
  assert (H4 : In 0.01%float scalingOptions) by (right; left; reflexivity).
  split; [auto |].
  destruct (series_label_shows_inverse_factor scaledState 1 "y" 0.01 H1 H2 H3 H4)
    as (suffix & suffixA & _ & HC & _ & _ & _ & H100).
  rewrite (H100 eq_refl) in HC. exact HC.
Defined.



End Builder.

(** ** Ingestion *)

Section Upload.

Variable calc : float -> string -> float.






End Upload.

Section Ingestion.

(** C2, the code at an empty parse result: after storing the file name
    and the empty data set, each component reads [csvData[0]], which is
    [undefined], and [Object.keys] throws; nothing alerts the user. *)
Theorem upload_of_empty_parse (name : string) (s : State) :
  let s' := setCsvData [] (setFileName (removeExtension name) s) in
  AppA.handleFileUpload name [] s
    = (s', [UncaughtTypeError "Cannot convert undefined or null to object"]) /\
  AppB.handleFileUpload name [] s
    = (s', [UncaughtTypeError "Cannot convert undefined or null to object"]) /\
  AppC.handleFileUpload name [] s
    = (s', [UncaughtTypeError "Cannot convert undefined or null to object"]).
Proof. repeat split. Qed.




End Ingestion.


(** ** More on the order of binary64 *)

Section Binary64Order.

Ltac order_cases :=
  repeat match goal with
    | H : context [Pos.compare_cont Eq ?a ?b] |- _ =>
        change (Pos.compare_cont Eq a b) with (Pos.compare a b) in H
    | |- context [Pos.compare_cont Eq ?a ?b] =>
        change (Pos.compare_cont Eq a b) with (Pos.compare a b)
    end;
  repeat match goal with
    | H : context [Z.compare ?a ?b] |- _ =>
        destruct (Z.compare_spec a b); cbn in H |- *
    | H : context [Pos.compare ?a ?b] |- _ =>
        destruct (Pos.compare_spec a b); cbn in H |- *
    | |- context [Z.compare ?a ?b] => destruct (Z.compare_spec a b); cbn
    | |- context [Pos.compare ?a ?b] => destruct (Pos.compare_spec a b); cbn
    end;
  try discriminate; try reflexivity; try lia.

Lemma SFleb_ltb_trans (x y z : spec_float) :
  SFleb x y = true -> SFltb y z = true -> SFltb x z = true.
Proof.
  unfold SFleb, SFltb.
  destruct x as [[] | [] | | [] mx ex], y as [[] | [] | | [] my ey],
    z as [[] | [] | | [] mz ez]; cbn; try discriminate; try reflexivity;
    intros Hxy Hyz; order_cases.
Qed.

Lemma SFltb_leb_trans (x y z : spec_float) :
  SFltb x y = true -> SFleb y z = true -> SFltb x z = true.
Proof.
  unfold SFleb, SFltb.
  destruct x as [[] | [] | | [] mx ex], y as [[] | [] | | [] my ey],
    z as [[] | [] | | [] mz ez]; cbn; try discriminate; try reflexivity;
    intros Hxy Hyz; order_cases.
Qed.

Lemma SFltb_not_nan (x y : spec_float) :
  SFltb x y = true -> x <> S754_nan /\ y <> S754_nan.
Proof.
  unfold SFltb.
  destruct x as [[] | [] | | [] mx ex], y as [[] | [] | | [] my ey];
    cbn; try discriminate; intros _; split; discriminate.
Qed.

Lemma SFeqb_ltb (x y z : spec_float) :
  SFeqb x y = true -> SFltb y z = true -> SFltb z x = false.
Proof.
  unfold SFeqb, SFltb.
  destruct x as [[] | [] | | [] mx ex], y as [[] | [] | | [] my ey],
    z as [[] | [] | | [] mz ez]; cbn; try discriminate; try reflexivity;
    intros Hxy Hyz; order_cases.
Qed.

Lemma leb_ltb_trans (a b c : float) :
  (a <=? b)%float = true -> (b <? c)%float = true -> (a <? c)%float = true.
Proof. rewrite FloatAxioms.leb_spec, !FloatAxioms.ltb_spec. apply SFleb_ltb_trans. Qed.

Lemma ltb_leb_trans (a b c : float) :
  (a <? b)%float = true -> (b <=? c)%float = true -> (a <? c)%float = true.
Proof. rewrite FloatAxioms.leb_spec, !FloatAxioms.ltb_spec. apply SFltb_leb_trans. Qed.

Lemma SF_not_nan (a : float) : Prim2SF a <> S754_nan -> is_nan a = false.
Proof.
  intros H. unfold is_nan. rewrite FloatAxioms.eqb_spec.
  assert (E : SFleb (Prim2SF a) (Prim2SF a) = true) by now apply SFleb_refl.
  unfold SFleb in E. unfold SFeqb.
  destruct (Prim2SF a) as [[] | [] | | [] m e]; cbn in *; try congruence;
    order_cases.
Qed.

Lemma ltb_not_nan (a b : float) :
  (a <? b)%float = true -> is_nan a = false /\ is_nan b = false.
Proof.
  rewrite FloatAxioms.ltb_spec. intros H.
  apply SFltb_not_nan in H as [Ha Hb]. split; now apply SF_not_nan.
Qed.

(** Above a threshold and not above a larger one means at most the
    larger one. *)
Lemma between (lo hi m : float) :
  (lo <? m)%float = true -> (hi <? m)%float = false ->
  is_nan hi = false -> (m <=? hi)%float = true.
Proof.
  intros Hlo Hhi Hnan. apply ltb_false_leb; [assumption | | assumption].
  now apply ltb_not_nan in Hlo.
Qed.

Lemma leb_false_ltb (a b : float) :
  (a <=? b)%float = false -> (a <? b)%float = false.
Proof.
  intros H. destruct (a <? b)%float eqn:E; [| reflexivity].
  apply ltb_leb in E. congruence.
Qed.

(** A number that [===] zero is above no positive threshold. *)
Lemma zero_below (t m : float) :
  (m =? 0)%float = true -> (0 <? t)%float = true -> (t <? m)%float = false.
Proof.
  rewrite FloatAxioms.eqb_spec, !FloatAxioms.ltb_spec. apply SFeqb_ltb.
Qed.

End Binary64Order.

(** ** The heuristic as a table *)

Section HeuristicTable.

Lemma bucketC_spec (maxValue : float) (fieldName : string) :
  isPercentageField fieldName = false ->
  AppC.calculateScalingFactor maxValue fieldName = bucketC maxValue.
Proof.
  intros Hp. unfold AppC.calculateScalingFactor, bucketC. rewrite Hp.
  destruct (maxValue =? 0)%float eqn:E0.
  { rewrite (zero_below 100 _ E0 eq_refl), (zero_below 50 _ E0 eq_refl),
      (zero_below 10 _ E0 eq_refl). reflexivity. }
  destruct (1000 <=? maxValue)%float eqn:E1000.
  { rewrite (ltb_leb_trans 100 1000 maxValue eq_refl E1000). reflexivity. }
  apply leb_false_ltb in E1000.
  destruct (100 <? maxValue)%float eqn:E100.
  { rewrite (between 100 1000 _ E100 E1000 eq_refl). reflexivity. }
  cbn [andb]. destruct (50 <? maxValue)%float eqn:E50.
  { rewrite (between 50 100 _ E50 E100 eq_refl). reflexivity. }
  cbn [andb]. destruct (10 <? maxValue)%float eqn:E10.
  { rewrite (between 10 50 _ E10 E50 eq_refl). reflexivity. }
  cbn [andb]. destruct ((1 <? maxValue) && (maxValue <=? 10))%float; reflexivity.
Qed.

Lemma bucketB_spec (maxValue : float) (fieldName : string) :
  isPercentageField fieldName = false ->
  AppB.calculateScalingFactor maxValue fieldName = bucketB maxValue.
Proof.
  intros Hp. unfold AppB.calculateScalingFactor, bucketB. rewrite Hp.
  destruct (maxValue =? 0)%float eqn:E0.
  { rewrite (zero_below 500 _ E0 eq_refl), (zero_below 50 _ E0 eq_refl),
      (zero_below 10 _ E0 eq_refl). reflexivity. }
  destruct (1000 <=? maxValue)%float eqn:E1000.
  { rewrite (ltb_leb_trans 500 1000 maxValue eq_refl E1000). reflexivity. }
  apply leb_false_ltb in E1000.
  destruct (500 <? maxValue)%float eqn:E500.
  { rewrite (between 500 1000 _ E500 E1000 eq_refl). reflexivity. }
  cbn [andb]. destruct (100 <? maxValue)%float eqn:E100.
  { rewrite (between 100 500 _ E100 E500 eq_refl).
    rewrite (leb_ltb_trans 50 100 maxValue eq_refl E100). reflexivity. }
  cbn [andb]. destruct (50 <? maxValue)%float eqn:E50.
  { rewrite (between 50 100 _ E50 E100 eq_refl). reflexivity. }
  cbn [andb]. destruct (10 <? maxValue)%float eqn:E10.
  { rewrite (between 10 50 _ E10 E50 eq_refl). reflexivity. }
  cbn [andb]. destruct ((1 <? maxValue) && (maxValue <=? 10))%float; reflexivity.
Qed.

(** X1: for a name that is not a percentage name, the eight tests of
    [calculateScalingFactor] come down to three thresholds: 0.001 above
    100 (above 500 in the second component of App.jsx), 0.01 above 50,
    0.1 above 10 and 1 otherwise; the test for zero, the upper bounds
    and the last rule change nothing. *)
Theorem heuristic_is_three_thresholds (maxValue : float) (fieldName : string) :
  isPercentageField fieldName = false ->
  AppC.calculateScalingFactor maxValue fieldName = bucketC maxValue /\
  AppB.calculateScalingFactor maxValue fieldName = bucketB maxValue.
Proof. intros Hp. split; [now apply bucketC_spec | now apply bucketB_spec]. Qed.

Lemma heuristic_is_three_thresholds_witness :
  isPercentageField "price" = false /\
  (AppC.calculateScalingFactor 1000 "price" = bucketC 1000 /\
   AppB.calculateScalingFactor 1000 "price" = bucketB 1000).
Proof.
  split; [reflexivity |].
  apply (heuristic_is_three_thresholds 1000 "price"). reflexivity.
Defined.

Lemma calculateScalingFactor_range (maxValue : float) (fieldName : string) :
  In (AppC.calculateScalingFactor maxValue fieldName)
     [0.001; 0.01; 0.1; 1]%float /\
  In (AppB.calculateScalingFactor maxValue fieldName)
     [0.001; 0.01; 0.1; 1]%float.
Proof.
  destruct (isPercentageField fieldName) eqn:Hp.
  - unfold AppC.calculateScalingFactor, AppB.calculateScalingFactor.
    rewrite Hp. cbn. tauto.
  - rewrite (bucketC_spec _ _ Hp), (bucketB_spec _ _ Hp).
    unfold bucketC, bucketB.
    destruct (100 <? maxValue)%float, (500 <? maxValue)%float,
      (50 <? maxValue)%float, (10 <? maxValue)%float; cbn; tauto.
Qed.

(** X2: whatever the maximum and the name, the factor the heuristic
    returns is 0.001, 0.01, 0.1 or 1: one of the scaling options, and
    never one that enlarges. *)
Theorem heuristic_never_enlarges (maxValue : float) (fieldName : string) :
  In (AppC.calculateScalingFactor maxValue fieldName)
     [0.001; 0.01; 0.1; 1]%float /\
  In (AppB.calculateScalingFactor maxValue fieldName)
     [0.001; 0.01; 0.1; 1]%float /\
  In (AppC.calculateScalingFactor maxValue fieldName) scalingOptions /\
  In (AppB.calculateScalingFactor maxValue fieldName) scalingOptions.
Proof.
  destruct (calculateScalingFactor_range maxValue fieldName) as [HC HB].
  split; [exact HC |]. split; [exact HB |].
  assert (Hsub : forall f, In f [0.001; 0.01; 0.1; 1]%float -> In f scalingOptions).
  { intros f H. repeat (destruct H as [<- | H]; [cbn; tauto |]). destruct H. }
  split; apply Hsub; assumption.
Qed.

(** X3: a larger maximum never gets a larger factor, in either variant
    of the heuristic. *)
Theorem heuristic_is_antitone (a b : float) (fieldName : string) :
  (a <=? b)%float = true ->
  (AppC.calculateScalingFactor b fieldName
     <=? AppC.calculateScalingFactor a fieldName)%float = true /\
  (AppB.calculateScalingFactor b fieldName
     <=? AppB.calculateScalingFactor a fieldName)%float = true.
Proof.
  intros Hab.
  destruct (isPercentageField fieldName) eqn:Hp.
  { unfold AppC.calculateScalingFactor, AppB.calculateScalingFactor.
    rewrite Hp. split; reflexivity. }
  rewrite !(bucketC_spec _ _ Hp), !(bucketB_spec _ _ Hp).
  unfold bucketC, bucketB. split.
  - destruct (100 <? a)%float eqn:A1;
      [rewrite (ltb_leb_trans _ _ _ A1 Hab); reflexivity |].
    destruct (50 <? a)%float eqn:A2;
      [rewrite (ltb_leb_trans _ _ _ A2 Hab);
       destruct (100 <? b)%float; reflexivity |].
    destruct (10 <? a)%float eqn:A3;
      [rewrite (ltb_leb_trans _ _ _ A3 Hab);
       destruct (100 <? b)%float, (50 <? b)%float; reflexivity |].
    destruct (100 <? b)%float, (50 <? b)%float, (10 <? b)%float; reflexivity.
  - destruct (500 <? a)%float eqn:A1;
      [rewrite (ltb_leb_trans _ _ _ A1 Hab); reflexivity |].
    destruct (50 <? a)%float eqn:A2;
      [rewrite (ltb_leb_trans _ _ _ A2 Hab);
       destruct (500 <? b)%float; reflexivity |].
    destruct (10 <? a)%float eqn:A3;
      [rewrite (ltb_leb_trans _ _ _ A3 Hab);
       destruct (500 <? b)%float, (50 <? b)%float; reflexivity |].
    destruct (500 <? b)%float, (50 <? b)%float, (10 <? b)%float; reflexivity.
Qed.

Lemma heuristic_is_antitone_witness :
  (20 <=? 700)%float = true /\
  ((AppC.calculateScalingFactor 700 "price"
      <=? AppC.calculateScalingFactor 20 "price")%float = true /\
   (AppB.calculateScalingFactor 700 "price"
      <=? AppB.calculateScalingFactor 20 "price")%float = true).
Proof.
  split; [reflexivity |].
  apply (heuristic_is_antitone 20 700 "price"). reflexivity.
Defined.

Lemma toLowerChar_idem (c : ascii) : toLowerChar (toLowerChar c) = toLowerChar c.
Proof.
  unfold toLowerChar.
  destruct ((65 <=? nat_of_ascii c)%nat && (nat_of_ascii c <=? 90)%nat) eqn:E.
  - apply andb_true_iff in E as [E1 E2]. apply Nat.leb_le in E1, E2.
    rewrite nat_ascii_embedding by lia.
    replace ((nat_of_ascii c + 32 <=? 90)%nat) with false
      by (symmetry; apply Nat.leb_gt; lia).
    rewrite andb_false_r. reflexivity.
  - rewrite E. reflexivity.
Qed.

(** X4: a name is a percentage name exactly when it contains "%" or
    "percent" in some mix of letter cases; lower-casing the name first
    changes nothing. *)
Theorem percentage_names (fieldName : string) :
  (isPercentageField fieldName = true <->
   containsAnyCase fieldName "percent" \/ containsAnyCase fieldName "%") /\
  isPercentageField (toLowerCase fieldName) = isPercentageField fieldName.
Proof.
  split; [apply isPercentageField_spec |].
  unfold isPercentageField.
  assert (E : toLowerCase (toLowerCase fieldName) = toLowerCase fieldName).
  { induction fieldName as [| c w IH]; [reflexivity |].
    cbn [toLowerCase]. rewrite IH. f_equal. apply toLowerChar_idem. }
  rewrite E. reflexivity.
Qed.

End HeuristicTable.

(** ** Selecting Y fields *)

Section Selection.

Lemma existsb_eqb_In (field : string) (l : list string) :
  existsb (String.eqb field) l = true <-> In field l.
Proof.
  rewrite existsb_exists. split.
  - intros (g & Hg & E). apply String.eqb_eq in E. now subst.
  - intros H. exists field. split; [assumption | apply String.eqb_refl].
Qed.

Lemma In_without (field g : string) (l : list string) :
  In g (List.filter (fun f => negb (String.eqb f field)) l) <-> In g l /\ g <> field.
Proof.
  rewrite filter_In, negb_true_iff, String.eqb_neq. reflexivity.
Qed.

Lemma without_absent (field : string) (l : list string) :
  ~ In field l -> List.filter (fun f => negb (String.eqb f field)) l = l.
Proof.
  induction l as [| g l IH]; intros H; [reflexivity |].
  cbn [List.filter].
  destruct (String.eqb_spec g field) as [-> | Hne].
  - exfalso. apply H. now left.
  - cbn [negb]. rewrite IH; [reflexivity |]. intros Hin. apply H. now right.
Qed.

Lemma without_app (field : string) (l k : list string) :
  List.filter (fun f => negb (String.eqb f field)) (l ++ k)
    = List.filter (fun f => negb (String.eqb f field)) l
        ++ List.filter (fun f => negb (String.eqb f field)) k.
Proof.
  induction l as [| g l IH]; [reflexivity |].
  cbn [List.filter app]. destruct (negb (String.eqb g field)); cbn; now rewrite IH.
Qed.

Lemma NoDup_without (field : string) (l : list string) :
  List.NoDup l -> List.NoDup (List.filter (fun f => negb (String.eqb f field)) l).
Proof.
  induction 1 as [| g l Hg _ IH]; cbn [List.filter]; [constructor |].
  destruct (negb (String.eqb g field)); [| assumption].
  constructor; [| assumption]. rewrite In_without. tauto.
Qed.

Lemma NoDup_snoc (field : string) (l : list string) :
  List.NoDup l -> ~ In field l -> List.NoDup (l ++ [field]).
Proof.
  induction 1 as [| g l Hg _ IH]; intros Hout; cbn [app].
  - constructor; [intros [] | constructor].
  - constructor.
    + rewrite in_app_iff. cbn [In]. intros [H | [H | []]]; [tauto |].
      subst. apply Hout. now left.
    + apply IH. intros H. apply Hout. now right.
Qed.

(** X5: ticking the box of a field flips that field in the selection
    and no other: afterwards the field is selected exactly when it was
    not before, every other field is selected exactly when it was, and a
    selection without repeats stays without repeats. *)
Theorem toggle_flips_one_field (field g : string) (s : State) :
  (In g (selectedFields (handleFieldChange field s)) <->
   (g <> field /\ In g (selectedFields s)) \/
   (g = field /\ ~ In field (selectedFields s))) /\
  (List.NoDup (selectedFields s) ->
   List.NoDup (selectedFields (handleFieldChange field s))).
Proof.
  unfold handleFieldChange. cbn [selectedFields setSelectedFields].
  destruct (existsb (String.eqb field) (selectedFields s)) eqn:E.
  - apply existsb_eqb_In in E. split.
    + rewrite In_without. tauto.
    + apply NoDup_without.
  - assert (Hout : ~ In field (selectedFields s)).
    { intros H. apply existsb_eqb_In in H. congruence. }
    split.
    + rewrite in_app_iff. cbn [In].
      destruct (string_dec g field) as [-> | Hne]; [tauto |].
      split; [intros [H | [H | []]]; [tauto | congruence] | tauto].
    + intros Hnd. now apply NoDup_snoc.
Qed.

Lemma toggle_flips_one_field_witness :
  List.NoDup (selectedFields scaledState) /\
  List.NoDup (selectedFields (handleFieldChange "z" scaledState)).
Proof.
  assert (H : List.NoDup (selectedFields scaledState)).
  { cbn. repeat constructor; cbn; intuition discriminate. }
  split; [exact H |].
  exact (proj2 (toggle_flips_one_field "z" "z" scaledState) H).
Defined.

(** X6: ticking and unticking a field that was not selected gives back
    the very state; for a field that was selected, unticking and ticking
    moves it to the end of the selection. *)
Theorem toggle_twice (field : string) (s : State) :
  (~ In field (selectedFields s) ->
   handleFieldChange field (handleFieldChange field s) = s) /\
  (In field (selectedFields s) ->
   selectedFields (handleFieldChange field (handleFieldChange field s))
     = List.filter (fun f => negb (String.eqb f field)) (selectedFields s)
         ++ [field]).
Proof.
  split; intros H.
  - assert (E : existsb (String.eqb field) (selectedFields s) = false).
    { apply not_true_is_false. intros E.
      apply existsb_eqb_In in E. contradiction. }
    unfold handleFieldChange at 2. rewrite E.
    unfold handleFieldChange. cbn [selectedFields setSelectedFields].
    assert (E' : existsb (String.eqb field) (selectedFields s ++ [field]) = true).
    { apply existsb_eqb_In, in_app_iff. right. now left. }
    rewrite E', without_app, (without_absent _ _ H).
    cbn [List.filter]. rewrite String.eqb_refl. cbn [negb].
    rewrite app_nil_r. destruct s; reflexivity.
  - assert (E : existsb (String.eqb field) (selectedFields s) = true)
      by now apply existsb_eqb_In.
    unfold handleFieldChange at 2. rewrite E.
    unfold handleFieldChange. cbn [selectedFields setSelectedFields].
    assert (E' : existsb (String.eqb field)
                   (List.filter (fun f => negb (String.eqb f field))
                                (selectedFields s)) = false).
    { apply not_true_is_false. intros E'.
      apply existsb_eqb_In, In_without in E'. tauto. }
    rewrite E'. reflexivity.
Qed.

Lemma toggle_twice_witness :
  ~ In "x"%string (selectedFields scaledState) /\
  handleFieldChange "x" (handleFieldChange "x" scaledState) = scaledState.
Proof.
  assert (H : ~ In "x"%string (selectedFields scaledState)).
  { cbn. intuition discriminate. }
  split; [exact H |].
  exact (proj1 (toggle_twice "x" scaledState) H).
Defined.

End Selection.

(** ** More on the graph-data builder *)

Section BuilderMore.

Lemma column_filter (csvData : list row) (field : string) (factor : float) :
  Scaled.column csvData field factor
    = map (fun row => times (get row field) factor)
          (List.filter (fun row => negb (isNaN (get row field))) csvData).
Proof.
  unfold Scaled.column.
  induction csvData as [| r rows IH]; [reflexivity |].
  cbn [map List.filter].
  destruct (negb (isNaN (get r field))); cbn [filterNotNull map]; now rewrite IH.
Qed.

Lemma zip_map_same {A B C} (f : A -> B) (g : A -> C) (l : list A) :
  zip (map f l) (map g l) = map (fun a => (f a, g a)) l.
Proof. induction l as [| a l IH]; cbn; [reflexivity | now rewrite IH]. Qed.

Lemma times_nan (v : value) (factor : float) :
  isNaN v = true -> is_nan (times v factor) = true.
Proof.
  unfold isNaN, times, is_nan. rewrite !FloatAxioms.eqb_spec, FloatAxioms.mul_spec.
  destruct (Prim2SF (ToNumber v)) as [[] | [] | | [] m e]; cbn;
    try discriminate; try reflexivity;
    rewrite ?Z.compare_refl, ?Pos.compare_cont_refl; cbn; discriminate.
Qed.

(** X7: with an X field chosen, ticking a field that was not selected
    adds its trace after the traces there were, and leaves those as
    they would have been. *)
Theorem ticking_appends_a_trace (field : string) (s : State) :
  xAxisField s <> "" ->
  ~ In field (selectedFields s) ->
  data (fst (Scaled.generateGraph (handleFieldChange field s)))
    = data (fst (Scaled.generateGraph s))
        ++ [ Plotly.Trace
               (Scaled.column (csvData s) (xAxisField s) (xAxisScalingFactor s))
               (Scaled.column (csvData s) field (factorOr1 (scalingFactors s) field))
               "lines"
               (field +:+ Scaled.formatScalingFactor
                            (factorOr1 (scalingFactors s) field)) ] /\
  length (data (fst (AppA.generateGraph (handleFieldChange field s))))
    = S (length (data (fst (AppA.generateGraph s)))).
Proof.
  intros Hx Hout.
  assert (E : existsb (String.eqb field) (selectedFields s) = false).
  { apply not_true_is_false. intros E. apply existsb_eqb_In in E. contradiction. }
  assert (Hsel : selectedFields (handleFieldChange field s)
                 = selectedFields s ++ [field]).
  { unfold handleFieldChange. rewrite E. reflexivity. }
  split.
  - rewrite !generateGraph_data by assumption.
    rewrite Hsel, map_app. reflexivity.
  - rewrite !generateGraphA_data by assumption.
    rewrite Hsel, map_app, length_app. cbn. lia.
Qed.

Lemma ticking_appends_a_trace_witness :
  (xAxisField scaledState <> "" /\ ~ In "x"%string (selectedFields scaledState)) /\
  length (data (fst (AppA.generateGraph (handleFieldChange "x" scaledState))))
    = S (length (data (fst (AppA.generateGraph scaledState)))).
Proof.
  assert (H1 : xAxisField scaledState <> "") by discriminate.
  assert (H2 : ~ In "x"%string (selectedFields scaledState)).
  { cbn. intuition discriminate. }
  split; [auto |].
  exact (proj2 (ticking_appends_a_trace "x" scaledState H1 H2)).
Defined.

(** X8: with an X field chosen, what Generate builds does not depend on
    the series built before or on which view is shown: generating over
    an old chart, or again after going back to the form, gives the state
    a first Generate gives. *)
Theorem generate_replaces_series (s : State) (old : list Plotly.trace) (form : bool) :
  xAxisField s <> "" ->
  fst (Scaled.generateGraph (setShowForm form (setData old s)))
    = fst (Scaled.generateGraph s) /\
  fst (Scaled.generateGraph (setShowForm true (fst (Scaled.generateGraph s))))
    = fst (Scaled.generateGraph s) /\
  fst (AppA.generateGraph (setShowForm form (setData old s)))
    = fst (AppA.generateGraph s) /\
  fst (AppA.generateGraph (setShowForm true (fst (AppA.generateGraph s))))
    = fst (AppA.generateGraph s).
Proof.
  intros Hx. unfold Scaled.generateGraph, AppA.generateGraph.
  cbn [xAxisField setShowForm setData].
  rewrite (falsyString_false _ Hx).
  cbn [fst xAxisField setShowForm setData].
  rewrite (falsyString_false _ Hx).
  repeat split.
Qed.

Lemma generate_replaces_series_witness :
  xAxisField scaledState <> "" /\
  fst (Scaled.generateGraph
         (setShowForm true (setData (data chartWithoutX) scaledState)))
    = fst (Scaled.generateGraph scaledState).
Proof.
  assert (H : xAxisField scaledState <> "") by discriminate.
  split; [exact H |].
  exact (proj1 (generate_replaces_series scaledState (data chartWithoutX) true H)).
Defined.

(** X9: with an X field chosen, Generate raises nothing, switches to the
    chart and builds one trace per selected field, in the order of the
    selection and each in mode "lines", while the data set, the
    selection and the factors stay as they are; with no Y field selected
    the chart is empty and still no prompt is raised. *)
Theorem generate_builds_one_trace_per_field (s : State) :
  xAxisField s <> "" ->
  let s' := fst (Scaled.generateGraph s) in
  snd (Scaled.generateGraph s) = [] /\
  showForm s' = false /\
  length (data s') = length (selectedFields s) /\
  Forall (fun t => Plotly.mode t = "lines") (data s') /\
  (csvData s' = csvData s /\ fields s' = fields s /\
   selectedFields s' = selectedFields s /\ scalingFactors s' = scalingFactors s /\
   xAxisField s' = xAxisField s /\ xAxisScalingFactor s' = xAxisScalingFactor s /\
   isFullScreen s' = isFullScreen s /\ fileName s' = fileName s) /\
  (selectedFields s = [] -> data s' = []).
Proof.
  intros Hx s'.
  assert (Hd : data s' = _) by exact (generateGraph_data s Hx).
  subst s'. unfold Scaled.generateGraph in *.
  rewrite (falsyString_false _ Hx) in *. cbn [fst snd] in *.
  split; [reflexivity |]. split; [reflexivity |].
  rewrite Hd. split; [apply length_map |]. split.
  - apply Forall_forall. intros t Ht. apply list_elem_of_In in Ht.
    apply in_map_iff in Ht as (field & <- & _). reflexivity.
  - split; [repeat split |]. intros ->. reflexivity.
Qed.

Lemma generate_builds_one_trace_per_field_witness :
  xAxisField scaledState <> "" /\
  length (data (fst (Scaled.generateGraph scaledState))) = 2%nat.
Proof.
  assert (H : xAxisField scaledState <> "") by discriminate.
  split; [exact H |].
  destruct (generate_builds_one_trace_per_field scaledState H)
    as (_ & _ & HC & _).
  exact HC.
Defined.

(** X10: when in every row the X cell and the Y cell of a selected
    field are numeric together or not at all, the points of its trace
    are the scaled pairs of the rows that are numeric, in row order. *)
Theorem paired_cells_give_row_points (s : State) (j : nat) (field : string) :
  xAxisField s <> "" ->
  selectedFields s !! j = Some field ->
  (forall row, In row (csvData s) ->
     isNaN (get row (xAxisField s)) = isNaN (get row field)) ->
  exists t,
    data (fst (Scaled.generateGraph s)) !! j = Some t /\
    Plotly.points t
      = map (fun row => (times (get row (xAxisField s)) (xAxisScalingFactor s),
                         times (get row field) (factorOr1 (scalingFactors s) field)))
            (List.filter (fun row => negb (isNaN (get row (xAxisField s))))
                         (csvData s)).
Proof.
  intros Hx Hj Hpair.
  rewrite (generateGraph_data _ Hx), lookup_map, Hj.
  eexists. split; [reflexivity |].
  unfold Plotly.points. cbn [Plotly.x Plotly.y].
  rewrite !column_filter.
  rewrite (filter_ext_in (fun row => negb (isNaN (get row field)))
             (fun row => negb (isNaN (get row (xAxisField s))))).
  - apply zip_map_same.
  - intros row Hrow. now rewrite (Hpair row Hrow).
Qed.

Lemma paired_cells_give_row_points_witness :
  (xAxisField pairedState <> "" /\
   selectedFields pairedState !! 0%nat = Some "y"%string /\
   (forall row, In row (csvData pairedState) ->
      isNaN (get row (xAxisField pairedState)) = isNaN (get row "y"))) /\
  (exists t,
     data (fst (Scaled.generateGraph pairedState)) !! 0%nat = Some t /\
     Plotly.points t
       = map (fun row => (times (get row "x") 1, times (get row "y") 0.1))
             (List.filter (fun row => negb (isNaN (get row "x"))) pairedRows)).
Proof.
  assert (H1 : xAxisField pairedState <> "") by discriminate.
  assert (H2 : selectedFields pairedState !! 0%nat = Some "y"%string)
    by reflexivity.
  assert (H3 : forall row, In row (csvData pairedState) ->
                 isNaN (get row (xAxisField pairedState)) = isNaN (get row "y")).
  { intros row [<- | [<- | [<- | []]]]; reflexivity. }
  split; [auto |].
  exact (paired_cells_give_row_points pairedState 0 "y" H1 H2 H3).
Defined.



End BuilderMore.

(** ** Factors, columns and the drop-downs *)

Section Factors.

Lemma column_all_nan (csvData : list row) (field : string) (factor : float) :
  (forall row, In row csvData -> isNaN (get row field) = true) ->
  Scaled.column csvData field factor = [].
Proof.
  unfold Scaled.column.
  induction csvData as [| r rows IH]; intros H; [reflexivity |].
  cbn [map]. rewrite (H r (or_introl eq_refl)). cbn [negb filterNotNull].
  apply IH. intros row Hrow. apply H. now right.
Qed.

(** X12: a selected field that no row has gives, in the two components
    with the heuristic, a trace without any point; in the first
    component, one point per row whose Y value is NaN. *)
Theorem missing_field_plots_nothing (s : State) (j : nat) (field : string) :
  xAxisField s <> "" ->
  selectedFields s !! j = Some field ->
  (forall row, In row (csvData s) -> row !! field = None) ->
  (exists t, data (fst (Scaled.generateGraph s)) !! j = Some t /\
             Plotly.y t = [] /\ Plotly.points t = []) /\
  (exists t, data (fst (AppA.generateGraph s)) !! j = Some t /\
             length (Plotly.y t) = length (csvData s) /\
             Forall (fun v => is_nan v = true) (Plotly.y t)).
Proof.
  intros Hx Hj Hmiss.
  assert (Hnan : forall row, In row (csvData s) -> isNaN (get row field) = true).
  { intros row Hrow. unfold get. rewrite (Hmiss row Hrow). reflexivity. }
  split.
  - rewrite (generateGraph_data _ Hx), lookup_map, Hj.
    eexists. split; [reflexivity |].
    unfold Plotly.points. cbn [Plotly.x Plotly.y].
    rewrite (column_all_nan _ _ _ Hnan). split; [reflexivity |].
    destruct (Scaled.column _ _ _); reflexivity.
  - rewrite (generateGraphA_data _ Hx), lookup_map, Hj.
    eexists. split; [reflexivity |]. cbn [Plotly.y].
    split; [apply length_map |].
    apply Forall_forall. intros v Hv. apply list_elem_of_In in Hv.
    apply in_map_iff in Hv as (row & <- & Hrow).
    apply times_nan, Hnan, Hrow.
Qed.

Lemma missing_field_plots_nothing_witness :
  (xAxisField (handleFieldChange "w" numericState) <> "" /\
   selectedFields (handleFieldChange "w" numericState) !! 2%nat = Some "w"%string /\
   (forall row, In row (csvData (handleFieldChange "w" numericState)) ->
      row !! "w"%string = None)) /\
  (exists t,
     data (fst (Scaled.generateGraph (handleFieldChange "w" numericState))) !! 2%nat
       = Some t /\
     Plotly.y t = [] /\ Plotly.points t = []).
Proof.
  assert (H1 : xAxisField (handleFieldChange "w" numericState) <> "")
    by discriminate.
  assert (H2 : selectedFields (handleFieldChange "w" numericState) !! 2%nat
               = Some "w"%string) by reflexivity.
  assert (H3 : forall row, In row (csvData (handleFieldChange "w" numericState)) ->
                 row !! "w"%string = None).
  { intros row [<- | [<- | []]]; reflexivity. }
  split; [auto |].
  exact (proj1 (missing_field_plots_nothing _ 2 "w" H1 H2 H3)).
Defined.



(** X14: every scaling option survives the drop-down: read back with
    [Number] from the text of its [value] attribute it is the option
    itself, so choosing it for the X axis stores exactly that factor,
    and choosing it for a Y field makes it that field's factor. *)
Theorem dropdown_round_trip (factor : float) (field : string) (s : State) :
  In factor scalingOptions ->
  ToNumber (VStr (Controls.optionValue factor)) = factor /\
  xAxisScalingFactor (Controls.onXScaleChange (Controls.optionValue factor) s)
    = factor /\
  (field <> xAxisField s ->
   factorOr1 (scalingFactors
                (Controls.onScaleChange field (Controls.optionValue factor) s))
             field = factor) /\
  factorOr1 (scalingFactors
               (Controls.onScaleChangeA field (Controls.optionValue factor) s))
            field = factor.
Proof.
  intros Hin.
  assert (E : ToNumber (VStr (Controls.optionValue factor)) = factor /\
              falsyNumber factor = false).
  { repeat (destruct Hin as [<- | Hin]; [split; vm_compute; reflexivity |]).
    destruct Hin. }
  destruct E as [E Htruthy].
  unfold Controls.onXScaleChange, Controls.onScaleChange, Controls.onScaleChangeA.
  rewrite E. split; [reflexivity |]. split; [reflexivity |]. split.
  - intros Hne. unfold Scaled.handleScalingChange.
    destruct (String.eqb_spec field (xAxisField s)); [contradiction |].
    cbn [scalingFactors setScalingFactors]. unfold factorOr1.
    rewrite lookup_insert_eq, Htruthy. reflexivity.
  - unfold AppA.handleScalingChange.
    cbn [scalingFactors setScalingFactors]. unfold factorOr1.
    rewrite lookup_insert_eq, Htruthy. reflexivity.
Qed.

Lemma dropdown_round_trip_witness :
  In 0.001%float scalingOptions /\
  xAxisScalingFactor
    (Controls.onXScaleChange (Controls.optionValue 0.001) numericState)
    = 0.001%float.
Proof.
  assert (H : In 0.001%float scalingOptions) by (left; reflexivity).
  split; [exact H |].
  destruct (dropdown_round_trip 0.001 "y" numericState H) as (_ & HC & _).
  exact HC.
Defined.

End Factors.

(** ** More on ingestion *)

Section IngestionMore.

Lemma convertCell_ToNumber (cell : value) :
  ToNumber (if isNaN cell then cell else Number cell) = ToNumber cell.
Proof. destruct (isNaN cell); reflexivity. Qed.

Lemma get_convertRow (r : row) (key : string) :
  get (Scaled.convertRow r) key
    = match r !! key with
      | Some cell => if isNaN cell then cell else Number cell
      | None => VUndefined
      end.
Proof.
  unfold get, Scaled.convertRow. rewrite lookup_fmap.
  destruct (r !! key); reflexivity.
Qed.

Lemma ToNumber_convertRow (r : row) (key : string) :
  ToNumber (get (Scaled.convertRow r) key) = ToNumber (get r key).
Proof.
  rewrite get_convertRow. unfold get.
  destruct (r !! key); [apply convertCell_ToNumber | reflexivity].
Qed.

Lemma isNaN_convertRow (r : row) (key : string) :
  isNaN (get (Scaled.convertRow r) key) = isNaN (get r key).
Proof. unfold isNaN. now rewrite ToNumber_convertRow. Qed.

(** X15: the conversion done at upload changes no plotted value: it is
    idempotent, every cell it leaves is a number or a value that
    [isNaN] rejects, and a column built from the converted rows is the
    column built from the rows as parsed. *)
Theorem conversion_keeps_values (rows : list row) (field : string) (factor : float) :
  map Scaled.convertRow (map Scaled.convertRow rows) = map Scaled.convertRow rows /\
  (forall r key cell,
     In r rows -> Scaled.convertRow r !! key = Some cell ->
     isNumberCell cell = true \/ isNaN cell = true) /\
  Scaled.column (map Scaled.convertRow rows) field factor
    = Scaled.column rows field factor.
Proof.
  split; [| split].
  - rewrite map_map. apply map_ext. intros r.
    apply map_eq. intros key. unfold Scaled.convertRow.
    rewrite !lookup_fmap. destruct (r !! key) as [cell |]; [| reflexivity].
    cbn. f_equal. destruct (isNaN cell) eqn:E; [now rewrite E |].
    unfold Number at 2. cbn. unfold isNaN in *. cbn. rewrite E. reflexivity.
  - intros r key cell _ H. unfold Scaled.convertRow in H.
    rewrite lookup_fmap in H. destruct (r !! key) as [c |]; [| discriminate].
    cbn in H. injection H as <-.
    destruct (isNaN c) eqn:E; [now right |].
    left. unfold Number, isNumberCell. unfold isNaN in E. now rewrite E.
  - unfold Scaled.column. rewrite map_map. f_equal. apply map_ext. intros r.
    rewrite isNaN_convertRow. unfold times. rewrite ToNumber_convertRow.
    reflexivity.
Qed.

Lemma trimStart_blank (s : string) : isBlank s = true -> trimStart s = "".
Proof.
  induction s as [| c s IH]; cbn; [reflexivity |].
  intros H. apply andb_true_iff in H as [Hc Hs]. rewrite Hc. now apply IH.
Qed.

(** X16: a cell that is [null], [false] or a string of white space only
    is stored as the number 0, and [true] as 1; [isNaN] rejects none
    of them, so the row keeps its place in every series. *)
Theorem empty_cells_become_zero (r : row) (key : string) (cell : value) :
  r !! key = Some cell ->
  (cell = VNull \/ cell = VBool false \/
   exists s, cell = VStr s /\ isBlank s = true) \/
  cell = VBool true ->
  get (Scaled.convertRow r) key
    = VNum (match cell with VBool true => 1 | _ => 0 end) /\
  isNaN (get r key) = false /\
  isNaN (get (Scaled.convertRow r) key) = false.
Proof.
  intros Hkey Hcell. rewrite isNaN_convertRow, get_convertRow.
  unfold get. rewrite Hkey.
  destruct Hcell as [[-> | [-> | (s & -> & Hs)]] | ->]; cbn.
  - auto.
  - auto.
  - assert (E : StringToNumber s = 0%float).
    { unfold StringToNumber, trim. rewrite (trimStart_blank _ Hs). reflexivity. }
    unfold isNaN, Number. cbn. rewrite E. auto.
  - auto.
Qed.

Lemma empty_cells_become_zero_witness :
  (({[ "id" := VStr "b-2"; "n" := VStr "  "; "ok" := VBool false ]} : row)
     !! "n"%string = Some (VStr "  ") /\
   ((VStr "  " = VNull \/ VStr "  " = VBool false \/
     exists s, VStr "  " = VStr s /\ isBlank s = true) \/
    VStr "  " = VBool true)) /\
  isNaN (get (Scaled.convertRow
                {[ "id" := VStr "b-2"; "n" := VStr "  "; "ok" := VBool false ]})
             "n") = false.
Proof.
  assert (H1 : ({[ "id" := VStr "b-2"; "n" := VStr "  "; "ok" := VBool false ]} : row)
                 !! "n"%string = Some (VStr "  ")) by reflexivity.
  assert (H2 : (VStr "  " = VNull \/ VStr "  " = VBool false \/
                exists s, VStr "  " = VStr s /\ isBlank s = true) \/
               VStr "  " = VBool true).
  { left. right. right. exists "  "%string. split; reflexivity. }
  split; [auto |].
  exact (proj2 (proj2 (empty_cells_become_zero _ "n" _ H1 H2))).
Defined.






(** X19: an upload, whatever the parser returned, sets the file name to
    the name without its last extension and leaves the selected Y
    fields, the X field and its factor, the built series and the view
    as they were; the first component leaves the factors too. *)
Theorem upload_keeps_the_selection
    (name : string) (resultData : list row) (s : State) :
  let kept (s' : State) :=
    fileName s' = removeExtension name /\
    selectedFields s' = selectedFields s /\ xAxisField s' = xAxisField s /\
    xAxisScalingFactor s' = xAxisScalingFactor s /\ data s' = data s /\
    showForm s' = showForm s /\ isFullScreen s' = isFullScreen s in
  kept (fst (AppA.handleFileUpload name resultData s)) /\
  kept (fst (AppB.handleFileUpload name resultData s)) /\
  kept (fst (AppC.handleFileUpload name resultData s)) /\
  scalingFactors (fst (AppA.handleFileUpload name resultData s)) = scalingFactors s /\
  csvData (fst (AppA.handleFileUpload name resultData s)) = resultData /\
  csvData (fst (AppC.handleFileUpload name resultData s))
    = map Scaled.convertRow resultData.
Proof. destruct resultData; cbn; repeat split. Qed.

End IngestionMore.

(** ** File names *)

Section FileNames.

Lemma split_cons (sep : ascii) (s : string) :
  exists piece rest, JS.split sep s = piece :: rest.
Proof.
  induction s as [| c s (piece & rest & IH)]; cbn [JS.split]; [eauto |].
  rewrite IH. destruct (c =? sep)%char; eauto.
Qed.

Lemma join_cons (c : ascii) (sep piece : string) (rest : list string) :
  join sep (String c piece :: rest) = String c (join sep (piece :: rest)).
Proof. destruct rest; reflexivity. Qed.

Lemma join_split (sep : ascii) (s : string) :
  join (String sep "") (JS.split sep s) = s.
Proof.
  induction s as [| c s IH]; [reflexivity |].
  cbn [JS.split]. destruct (split_cons sep s) as (piece & rest & E).
  rewrite E in *. destruct (Ascii.eqb_spec c sep) as [-> | Hne].
  - change (join (String sep "") ("" :: piece :: rest))
      with (String sep (join (String sep "") (piece :: rest))).
    now rewrite IH.
  - now rewrite join_cons, IH.
Qed.

Lemma split_without (sep : ascii) (s : string) :
  hasChar sep s = false -> JS.split sep s = [s].
Proof.
  induction s as [| c s IH]; [reflexivity |].
  cbn [hasChar JS.split]. intros H. apply orb_false_iff in H as [Hc Hs].
  rewrite (IH Hs), Hc. reflexivity.
Qed.

Lemma split_app (sep : ascii) (base ext : string) :
  hasChar sep ext = false ->
  JS.split sep (base +:+ String sep ext) = JS.split sep base ++ [ext].
Proof.
  intros Hext. induction base as [| c base IH].
  - rewrite append_nil_l. cbn [JS.split].
    rewrite (split_without _ _ Hext), Ascii.eqb_refl. reflexivity.
  - rewrite append_cons. cbn [JS.split]. rewrite IH.
    destruct (split_cons sep base) as (piece & rest & E). rewrite E.
    cbn [app]. destruct (c =? sep)%char; reflexivity.
Qed.

(** X20: the file name kept for a file is its name up to the last dot:
    [base] for [base.ext] when [ext] holds no dot, and the empty string
    for a name without any dot; splitting a name at its dots and joining
    the pieces gives the name back. *)
Theorem file_name_drops_last_extension (base ext name : string) :
  (hasChar "." ext = false -> removeExtension (base +:+ "." +:+ ext) = base) /\
  (hasChar "." name = false -> removeExtension name = "") /\
  join "." (JS.split "." name) = name.
Proof.
  unfold removeExtension, dropLast. split; [| split].
  - intros Hext. change ("." +:+ ext) with (String "." ext).
    rewrite (split_app _ _ _ Hext), removelast_last. apply join_split.
  - intros Hname. rewrite (split_without _ _ Hname). reflexivity.
  - apply join_split.
Qed.

Lemma file_name_drops_last_extension_witness :
  hasChar "." "csv" = false /\
  removeExtension ("sales.2024" +:+ "." +:+ "csv") = "sales.2024".
Proof.
  assert (H : hasChar "." "csv" = false) by reflexivity.
  split; [exact H |].
  exact (proj1 (file_name_drops_last_extension "sales.2024" "csv" "" ) H).
Defined.

Lemma replaceColonDot_clean (str : string) :
  String.length (Download.replaceColonDot str) = String.length str /\
  hasChar ":" (Download.replaceColonDot str) = false /\
  hasChar "." (Download.replaceColonDot str) = false.
Proof.
  induction str as [| c str (Hlen & Hcolon & Hdot)]; [repeat split |].
  cbn [Download.replaceColonDot String.length hasChar].
  rewrite Hlen, Hcolon, Hdot, !orb_false_r. split; [reflexivity |].
  destruct (Ascii.eqb_spec c ":") as [-> | H1]; [split; reflexivity |].
  destruct (Ascii.eqb_spec c ".") as [-> | H2]; [split; reflexivity |].
  cbn [orb]. split; now apply Ascii.eqb_neq.
Qed.

(** X21: the exported image is saved as the file name, a dash, the time
    stamp and ".png", where the time stamp has the length of the ISO
    text it comes from and holds neither ":" nor "."; when the capture
    fails nothing is downloaded and the failure goes to the console
    only; the state is not involved beyond its file name. *)
Theorem download_name_is_clean (isoTime dataUrl : string) (s : State) :
  exists stamp,
    Download.downloadImage isoTime (Some dataUrl) s
      = Download.Downloaded dataUrl (fileName s +:+ "-" +:+ stamp +:+ ".png") /\
    String.length stamp = String.length isoTime /\
    hasChar ":" stamp = false /\ hasChar "." stamp = false /\
    Download.downloadImage isoTime None s
      = Download.ConsoleError "Failed to download image".
Proof.
  exists (Download.replaceColonDot isoTime).
  destruct (replaceColonDot_clean isoTime) as (Hlen & Hcolon & Hdot).
  repeat split; assumption.
Qed.

End FileNames.

(** ** Choosing the X field; the components side by side *)

Section Composition.




Lemma filter_all (csvData : list row) (field : string) :
  (forall row, In row csvData -> isNaN (get row field) = false) ->
  List.filter (fun row => negb (isNaN (get row field))) csvData = csvData.
Proof.
  induction csvData as [| r rows IH]; intros H; [reflexivity |].
  cbn [List.filter]. rewrite (H r (or_introl eq_refl)). cbn [negb].
  f_equal. apply IH. intros row Hrow. apply H. now right.
Qed.

(** X23: on rows whose X cell and selected Y cells are all numeric, the
    first component and the two with the heuristic build the same X and
    Y columns for every selected field; they differ in the label only. *)
Theorem components_agree_on_numeric_rows (s : State) (j : nat) (field : string) :
  xAxisField s <> "" ->
  selectedFields s !! j = Some field ->
  (forall row g, In row (csvData s) -> In g (xAxisField s :: selectedFields s) ->
     isNaN (get row g) = false) ->
  exists t tA,
    data (fst (Scaled.generateGraph s)) !! j = Some t /\
    data (fst (AppA.generateGraph s)) !! j = Some tA /\
    Plotly.x t = Plotly.x tA /\ Plotly.y t = Plotly.y tA /\
    Plotly.mode t = Plotly.mode tA.
Proof.
  intros Hx Hj Hnum.
  assert (Hfield : In field (selectedFields s))
    by (apply list_elem_of_In; eapply list_elem_of_lookup_2; eassumption).
  rewrite (generateGraph_data _ Hx), (generateGraphA_data _ Hx), !lookup_map, Hj.
  eexists _, _. split; [reflexivity |]. split; [reflexivity |].
  cbn [Plotly.x Plotly.y Plotly.mode]. rewrite !column_filter, !filter_all; auto.
  - intros row Hrow. apply Hnum; [assumption | now right].
  - intros row Hrow. apply Hnum; [assumption | now left].
Qed.

Lemma components_agree_on_numeric_rows_witness :
  (xAxisField numericState <> "" /\
   selectedFields numericState !! 0%nat = Some "y"%string /\
   (forall row g, In row (csvData numericState) ->
      In g (xAxisField numericState :: selectedFields numericState) ->
      isNaN (get row g) = false)) /\
  (exists t tA,
     data (fst (Scaled.generateGraph numericState)) !! 0%nat = Some t /\
     data (fst (AppA.generateGraph numericState)) !! 0%nat = Some tA /\
     Plotly.x t = Plotly.x tA /\ Plotly.y t = Plotly.y tA /\
     Plotly.mode t = Plotly.mode tA).
Proof.
  assert (H1 : xAxisField numericState <> "") by discriminate.
  assert (H2 : selectedFields numericState !! 0%nat = Some "y"%string)
    by reflexivity.
  assert (H3 : forall row g, In row (csvData numericState) ->
                 In g (xAxisField numericState :: selectedFields numericState) ->
                 isNaN (get row g) = false).
  { intros row g [<- | [<- | []]] [<- | [<- | [<- | []]]]; reflexivity. }
  split; [auto |].
  exact (components_agree_on_numeric_rows numericState 0 "y" H1 H2 H3).
Defined.

End Composition.
